(** * BibTeX support module of Rubber: staleness engine and parsers

    A shallow embedding of [src/bibtex.py] (class [Module]) and the proofs
    of the properties of its registry parser, its rerun decision procedure
    and its log parser.

    Conventions of the embedding.
    - Python [str] is [string]; comparison of [str] is the byte-wise
      lexicographic order [String.le].
    - Python dictionaries are [gmap]s; [list.sort ()] is [merge_sort] for
      the order Python uses on the elements.
    - The file system is a function from path names to files; [exists],
      [getmtime] and [open] read it.  A missing file makes [getmtime]
      and [open] raise.
    - Modification times are numbers of which the code uses the order
      only; they are integers here.
    - Methods that read or write attributes of [self] and [self.doc] are
      functions in the monad [M] of state and exceptions; a raised
      exception keeps the assignments made before it.
    - Calls to [msg.log], [msg.progress] and [msg.info] write to the
      host's message stream only and are left out. *)

From Stdlib Require Import ZArith Ascii.
From stdpp Require Import base gmap strings list sorting.

#[local] Set Warnings "-clear-no-such-hyp".

(** ** Strings, as Python's [str] operations use them *)

Module Str.

Definition newline : ascii := ascii_of_nat 10.

Definition eqb_ascii (a b : ascii) : bool := bool_decide (a = b).

(** [s.startswith (p)], returning the rest of [s]. *)
Fixpoint strip_prefix (p s : string) : option string :=
  match p, s with
  | EmptyString, _ => Some s
  | String a p', String b s' =>
      if eqb_ascii a b then strip_prefix p' s' else None
  | String _ _, EmptyString => None
  end.

Definition startswith (p s : string) : bool :=
  match strip_prefix p s with Some _ => true | None => false end.

(** [p in s] for strings: [p] occurs somewhere in [s]. *)
Fixpoint contains (p s : string) : bool :=
  startswith p s ||
  match s with
  | EmptyString => false
  | String _ s' => contains p s'
  end.

(** The part of [s] that a run of [.] can cover: a dot matches every
    character but the newline. *)
Fixpoint dot_star (s : string) : string :=
  match s with
  | EmptyString => EmptyString
  | String a s' =>
      if eqb_ascii a newline then EmptyString else String a (dot_star s')
  end.

(** The text before the last occurrence of [c]: what a greedy [.*]
    followed by the character [c] captures. *)
Fixpoint upto_last (c : ascii) (s : string) : option string :=
  match s with
  | EmptyString => None
  | String a s' =>
      match upto_last c s' with
      | Some pre => Some (String a pre)
      | None => if eqb_ascii a c then Some EmptyString else None
      end
  end.

(** [s.split (sep)] for a one-character separator. *)
Fixpoint split (sep : ascii) (s : string) : list string :=
  match s with
  | EmptyString => [EmptyString]
  | String a s' =>
      if eqb_ascii a sep then EmptyString :: split sep s'
      else match split sep s' with
           | w :: ws => String a w :: ws
           | [] => [String a EmptyString]
           end
  end.

(** [string.join (l, sep)]. *)
Fixpoint join (sep : string) (l : list string) : string :=
  match l with
  | [] => ""
  | [x] => x
  | x :: l' => x +:+ sep +:+ join sep l'
  end.

(** [s.endswith (c)] for one character. *)
Fixpoint endswith (c : ascii) (s : string) : bool :=
  match s with
  | EmptyString => false
  | String a EmptyString => eqb_ascii a c
  | String _ s' => endswith c s'
  end.

Definition is_space (a : ascii) : bool :=
  let n := nat_of_ascii a in
  (n =? 32)%nat || ((9 <=? n)%nat && (n <=? 13)%nat).

Fixpoint lstrip (s : string) : string :=
  match s with
  | EmptyString => EmptyString
  | String a s' => if is_space a then lstrip s' else s
  end.

Fixpoint rstrip (s : string) : string :=
  match s with
  | EmptyString => EmptyString
  | String a s' =>
      match rstrip s' with
      | EmptyString => if is_space a then EmptyString else String a EmptyString
      | r => String a r
      end
  end.

Definition strip (s : string) : string := lstrip (rstrip s).

(** Slices: [s[:n]], [s[n:]], [s[:-n]] and [s[-n:]] for [n > 0]. *)
Fixpoint take (n : nat) (s : string) : string :=
  match n, s with
  | S n', String a s' => String a (take n' s')
  | _, _ => EmptyString
  end.

Fixpoint drop (n : nat) (s : string) : string :=
  match n, s with
  | S n', String _ s' => drop n' s'
  | _, _ => s
  end.

Definition drop_last (n : nat) (s : string) : string :=
  take (String.length s - n) s.

Definition take_last (n : nat) (s : string) : string :=
  drop (String.length s - n) s.

Definition is_digit (a : ascii) : bool :=
  let n := nat_of_ascii a in (48 <=? n)%nat && (n <=? 57)%nat.

(** The longest run of digits at the head of [s], and what follows. *)
Fixpoint span_digits (s : string) : string * string :=
  match s with
  | EmptyString => (EmptyString, EmptyString)
  | String a s' =>
      if is_digit a
      then let '(ds, r) := span_digits s' in (String a ds, r)
      else (EmptyString, s)
  end.

(** [int (ds)] for a string of decimal digits. *)
Fixpoint int_acc (acc : Z) (ds : string) : Z :=
  match ds with
  | EmptyString => acc
  | String a ds' => int_acc (10 * acc + Z.of_nat (nat_of_ascii a - 48)) ds'
  end.

Definition int (ds : string) : Z := int_acc 0 ds.

(** [f.readlines ()]: the lines of a file, each with its newline. *)
Fixpoint readlines_go (cur : string) (s : string) : list string :=
  match s with
  | EmptyString =>
      match cur with EmptyString => [] | _ => [String.rev cur] end
  | String a s' =>
      if eqb_ascii a newline
      then String.rev (String a cur) :: readlines_go EmptyString s'
      else readlines_go (String a cur) s'
  end.

Definition readlines (s : string) : list string := readlines_go EmptyString s.

End Str.

(** [os.path.join (dir, name)] of [posixpath]. *)
Definition join (dir name : string) : string :=
  if Str.startswith "/" name then name
  else if bool_decide (dir = "") || Str.endswith "/"%char dir
       then dir +:+ name
       else dir +:+ "/" +:+ name.

(** ** The regular expressions of the module *)

(** [re_citation.match (line)], group [cite]: the line starts with
    backslash, [citation] and an opening brace; the group is a greedy run
    of dots, closed by a brace. *)
Definition re_citation (line : string) : option string :=
  r ← Str.strip_prefix "\citation{" line;
  Str.upto_last "}"%char (Str.dot_star r).

(** [re_bibdata.match (line)], group [data]: the same shape with the
    word [bibdata]. *)
Definition re_bibdata (line : string) : option string :=
  r ← Str.strip_prefix "\bibdata{" line;
  Str.upto_last "}"%char (Str.dot_star r).

(** The greedy group of [re_undef]: the longest prefix after which the
    text goes on with [' ], anything, [undefined]. *)
Fixpoint undef_cite (s : string) : option string :=
  match s with
  | EmptyString => None
  | String a s' =>
      match undef_cite s' with
      | Some c => Some (String a c)
      | None =>
          match Str.strip_prefix "' " s with
          | Some r => if Str.contains "undefined" r then Some EmptyString else None
          | None => None
          end
      end
  end.

(** [re_undef.match (line)], group [cite]. *)
Definition re_undef (line : string) : option string :=
  r ← Str.strip_prefix "LaTeX Warning: Citation `" line;
  undef_cite (Str.dot_star r).

(** A match object of [re_error]: [m.start ()] and the two groups. *)
Record error_match := ErrorMatch {
  m_start : nat;
  m_line : option string;
  m_file : string
}.

(** [re_error] tried at the head of [s]: three dashes, then either
    [line ], the group [line] of one or more digits and [ of], or
    [while reading]; then [ file ] and the group [file], a greedy run of
    dots.  The digits are followed by a space, so the group [line] is the
    longest run of digits. *)
Definition re_error_here (s : string) : option (option string * string) :=
  r ← Str.strip_prefix "---" s;
  let alt_line :=
    r1 ← Str.strip_prefix "line " r;
    let '(ds, r2) := Str.span_digits r1 in
    if bool_decide (ds = "") then None
    else r3 ← Str.strip_prefix " of" r2;
         r4 ← Str.strip_prefix " file " r3;
         Some (Some ds, Str.dot_star r4) in
  match alt_line with
  | Some m => Some m
  | None =>
      r1 ← Str.strip_prefix "while reading" r;
      r4 ← Str.strip_prefix " file " r1;
      Some (None, Str.dot_star r4)
  end.

(** [re_error.search (line)]: the leftmost position where it matches. *)
Fixpoint re_error_from (pos : nat) (s : string) : option error_match :=
  match re_error_here s with
  | Some (l, f) => Some (ErrorMatch pos l f)
  | None =>
      match s with
      | EmptyString => None
      | String _ s' => re_error_from (S pos) s'
      end
  end.

Definition re_error (line : string) : option error_match := re_error_from 0 line.

(** ** The state: file system, host document, module instance *)

Inductive exn :=
  | IOError (path : string)
  | OSError (path : string)
  | AttributeError (what : string).

Inductive result (A : Type) :=
  | Ok (a : A)
  | Raise (e : exn).
Arguments Ok {A} a.
Arguments Raise {A} e.

Record File := mkFile { f_mtime : Z; f_data : string }.

Definition FileSystem := string → option File.

(** [DependLeaf (env, path)], a leaf of the host's dependency graph. *)
Record DependLeaf := mkLeaf { leaf_path : string }.

(** The attributes of the host document [self.doc] the module uses;
    [aux_md5] holds the keys of that dictionary, [log_lines] is
    [doc.log.lines]. *)
Record Doc := mkDoc {
  src_base : string;
  src_path : string;
  abspath : string → string;
  aux_md5 : list string;
  log_lines : list string;
  must_compile : bool;
  sources : gmap string DependLeaf;
  not_included : list string
}.

(** The attributes of the module instance.  [prev_dbs] is assigned by
    [pre_compile] only: its outer [None] is the attribute not assigned
    yet, the inner one is Python's [None]. *)
Record Module := mkModule {
  base : string;
  bib_path : list string;
  bst_path : list string;
  undef_cites : option (list string);
  used_cites : option (list string);
  prev_dbs : option (option (list string));
  style : option string;
  bst_file : option string;
  db : gmap string string;
  sorted : bool;
  run_needed : bool
}.

(** [executed] lists the commands given to [env.execute] so far. *)
Record World := mkWorld {
  fs : FileSystem;
  doc : Doc;
  self : Module;
  executed : list (list string)
}.

Definition with_fs (f : FileSystem) (w : World) : World :=
  mkWorld f (doc w) (self w) (executed w).
Definition with_doc (d : Doc) (w : World) : World :=
  mkWorld (fs w) d (self w) (executed w).
Definition with_self (s : Module) (w : World) : World :=
  mkWorld (fs w) (doc w) s (executed w).

Definition set_must_compile (b : bool) (d : Doc) : Doc :=
  mkDoc (src_base d) (src_path d) (abspath d) (aux_md5 d) (log_lines d) b
        (sources d) (not_included d).
Definition set_sources (m : gmap string DependLeaf) (d : Doc) : Doc :=
  mkDoc (src_base d) (src_path d) (abspath d) (aux_md5 d) (log_lines d)
        (must_compile d) m (not_included d).
Definition set_not_included (l : list string) (d : Doc) : Doc :=
  mkDoc (src_base d) (src_path d) (abspath d) (aux_md5 d) (log_lines d)
        (must_compile d) (sources d) l.

Definition set_bib_path (l : list string) (s : Module) : Module :=
  mkModule (base s) l (bst_path s) (undef_cites s) (used_cites s) (prev_dbs s)
           (style s) (bst_file s) (db s) (sorted s) (run_needed s).
Definition set_bst_path (l : list string) (s : Module) : Module :=
  mkModule (base s) (bib_path s) l (undef_cites s) (used_cites s) (prev_dbs s)
           (style s) (bst_file s) (db s) (sorted s) (run_needed s).
Definition set_undef_cites (v : option (list string)) (s : Module) : Module :=
  mkModule (base s) (bib_path s) (bst_path s) v (used_cites s) (prev_dbs s)
           (style s) (bst_file s) (db s) (sorted s) (run_needed s).
Definition set_used_cites (v : option (list string)) (s : Module) : Module :=
  mkModule (base s) (bib_path s) (bst_path s) (undef_cites s) v (prev_dbs s)
           (style s) (bst_file s) (db s) (sorted s) (run_needed s).
Definition set_prev_dbs (v : option (list string)) (s : Module) : Module :=
  mkModule (base s) (bib_path s) (bst_path s) (undef_cites s) (used_cites s)
           (Some v) (style s) (bst_file s) (db s) (sorted s) (run_needed s).
Definition set_style_name (v : string) (s : Module) : Module :=
  mkModule (base s) (bib_path s) (bst_path s) (undef_cites s) (used_cites s)
           (prev_dbs s) (Some v) (bst_file s) (db s) (sorted s) (run_needed s).
Definition set_bst_file (v : option string) (s : Module) : Module :=
  mkModule (base s) (bib_path s) (bst_path s) (undef_cites s) (used_cites s)
           (prev_dbs s) (style s) v (db s) (sorted s) (run_needed s).
Definition set_db (m : gmap string string) (s : Module) : Module :=
  mkModule (base s) (bib_path s) (bst_path s) (undef_cites s) (used_cites s)
           (prev_dbs s) (style s) (bst_file s) m (sorted s) (run_needed s).
Definition set_sorted (b : bool) (s : Module) : Module :=
  mkModule (base s) (bib_path s) (bst_path s) (undef_cites s) (used_cites s)
           (prev_dbs s) (style s) (bst_file s) (db s) b (run_needed s).
Definition set_run_needed (b : bool) (s : Module) : Module :=
  mkModule (base s) (bib_path s) (bst_path s) (undef_cites s) (used_cites s)
           (prev_dbs s) (style s) (bst_file s) (db s) (sorted s) b.

(** ** The monad of state and exceptions *)

Definition M (A : Type) : Type := World → result A * World.

Definition ret {A} (a : A) : M A := λ w, (Ok a, w).
Definition raise {A} (e : exn) : M A := λ w, (Raise e, w).
Definition bind {A B} (m : M A) (k : A → M B) : M B :=
  λ w, match m w with
       | (Ok a, w') => k a w'
       | (Raise e, w') => (Raise e, w')
       end.

Declare Scope py_scope.
Delimit Scope py_scope with py.
Notation "x <- m ;; k" := (bind m (λ x, k))
  (at level 100, m at next level, k at level 200, right associativity) : py_scope.
Notation "m ;; k" := (bind m (λ _, k))
  (at level 100, k at level 200, right associativity) : py_scope.

(** The same for a computation that reads only. *)
Definition rbind {A B} (r : result A) (k : A → result B) : result B :=
  match r with
  | Ok a => k a
  | Raise e => Raise e
  end.
Notation "x <~ r ;; k" := (rbind r (λ x, k))
  (at level 100, r at next level, k at level 200, right associativity) : py_scope.
Local Open Scope py_scope.

(** A computation that reads the state and may raise. *)
Definition reads {A} (f : World → result A) : M A := λ w, (f w, w).
Definition gets {A} (f : World → A) : M A := λ w, (Ok (f w), w).
Definition on_self (f : Module → Module) : M unit :=
  λ w, (Ok tt, with_self (f (self w)) w).
Definition on_doc (f : Doc → Doc) : M unit :=
  λ w, (Ok tt, with_doc (f (doc w)) w).

(** [os.path.exists] and [os.path.getmtime]. *)
Definition exists_file (f : FileSystem) (path : string) : bool :=
  match f path with Some _ => true | None => false end.

Definition getmtime (f : FileSystem) (path : string) : result Z :=
  match f path with
  | Some x => Ok (f_mtime x)
  | None => Raise (OSError path)
  end.

(** The truth value of an attribute holding [None] or a list. *)
Definition truthy {A} (v : option (list A)) : bool :=
  match v with Some (_ :: _) => true | _ => false end.

(** ** The registry parser, [parse_aux] *)

(** The order of Python on the pairs [(n, c)]. *)
Definition pair_le (p q : Z * string) : Prop :=
  (p.1 < q.1)%Z ∨ (p.1 = q.1 ∧ String.le p.2 q.2).

Global Instance pair_le_dec : RelDecision pair_le.
Proof. intros p q. unfold pair_le. apply _. Defined.

(** The state of the scan: [last], [cites] and [dbs]. *)
Definition scan : Type := Z * gmap string Z * list string.

(** The body of the loop over the lines of one file. *)
Definition parse_line (acc : scan) (line : string) : scan :=
  let '(last, cites, dbs) := acc in
  match re_citation line with
  | Some cite =>
      match cites !! cite with
      | Some _ => acc
      | None => let last := (last + 1)%Z in (last, <[cite := last]> cites, dbs)
      end
  | None =>
      match re_bibdata line with
      | Some data => (last, cites, dbs ++ Str.split ","%char data)
      | None => acc
      end
  end.

(** The loop over [self.doc.aux_md5.keys ()]. *)
Fixpoint parse_files (f : FileSystem) (acc : scan) (auxnames : list string)
  : result scan :=
  match auxnames with
  | [] => Ok acc
  | auxname :: rest =>
      match f auxname with
      | None => Raise (IOError auxname)
      | Some aux => parse_files f (foldl parse_line acc (Str.readlines (f_data aux))) rest
      end
  end.

Definition parse_aux (w : World) : result (list string * list string) :=
  match parse_files (fs w) (0%Z, ∅, []) (aux_md5 (doc w)) with
  | Raise e => Raise e
  | Ok (_, cites, dbs) =>
      let dbs := merge_sort String.le dbs in
      if sorted (self w)
      then Ok (merge_sort String.le (map_to_list cites).*1, dbs)
      else
        let list := merge_sort pair_le ((λ cn, (cn.2, cn.1)) <$> map_to_list cites) in
        Ok (list.*2, dbs)
  end.

(** ** Undefined citations, [list_undefs] *)

Definition undef_line (cites : gmap string unit) (line : string)
  : gmap string unit :=
  match re_undef line with
  | Some cite => <[cite := tt]> cites
  | None => cites
  end.

Definition list_undefs (w : World) : list string :=
  let cites := foldl undef_line ∅ (log_lines (doc w)) in
  merge_sort String.le (map_to_list cites).*1.

(** ** Declaring the data files: [add_db], [set_style] and the commands *)

Definition do_path (path : string) : M unit :=
  d <- gets doc;;
  on_self (λ s, set_bib_path (bib_path s ++ [abspath d path]) s).

Definition do_stylepath (path : string) : M unit :=
  d <- gets doc;;
  on_self (λ s, set_bst_path (bst_path s ++ [abspath d path]) s).

Definition do_sorted (mode : string) : M unit :=
  on_self (set_sorted (bool_decide (mode ∈ ["true"; "yes"; "1"]))).

(** The loop of [add_db] over [self.bib_path]. *)
Fixpoint add_db_loop (name : string) (dirs : list string) : M unit :=
  match dirs with
  | [] => ret tt
  | dir :: rest =>
      let bib := join dir (name +:+ ".bib") in
      found <- gets (λ w, exists_file (fs w) bib);;
      if found : bool then
        on_self (λ s, set_db (<[name := bib]> (db s)) s);;
        on_doc (λ d, set_sources (<[bib := mkLeaf bib]> (sources d)) d);;
        on_doc (λ d, set_not_included (not_included d ++ [bib]) d)
      else add_db_loop name rest
  end.

Definition add_db (name : string) : M unit :=
  dirs <- gets (λ w, bib_path (self w));;
  add_db_loop name dirs.

(** The loop of [set_style] over [self.bst_path]. *)
Fixpoint set_style_loop (name : string) (dirs : list string) : M unit :=
  match dirs with
  | [] => on_self (set_bst_file None)
  | dir :: rest =>
      let new_bst := join dir (name +:+ ".bst") in
      found <- gets (λ w, exists_file (fs w) new_bst);;
      if found : bool then
        on_self (set_bst_file (Some new_bst));;
        on_doc (λ d, set_sources (<[new_bst := mkLeaf new_bst]> (sources d)) d)
      else set_style_loop name rest
  end.

Definition set_style (name : string) : M unit :=
  w <- gets id;;
  (match style (self w) with
   | Some (String _ _ as old) =>
       let old_bst := old +:+ ".bst" in
       if exists_file (fs w) old_bst && bool_decide (is_Some (sources (doc w) !! old_bst))
       then on_doc (λ d, set_sources (delete old_bst (sources d)) d)
       else ret tt
   | _ => ret tt
   end);;
  on_self (set_style_name name);;
  dirs <- gets (λ w, bst_path (self w));;
  set_style_loop name dirs.

(** [Module.__init__ (doc, dict, base)], with [cwd] for
    [doc.env.vars["cwd"]]; the attributes [set_style] does not read are
    given their first values at once. *)
Definition init (f : FileSystem) (d : Doc) (cwd : string) (b : option string)
  : World :=
  let s := mkModule (default (src_base d) b)
                    (cwd :: if bool_decide (src_path d ≠ cwd) then [src_path d] else [])
                    [cwd] None None None None None ∅ true false in
  (set_style "plain" (mkWorld f d s [])).2.

(** ** Reading the tool log: [style_changed] *)

Fixpoint style_changed_loop (cur : option string) (lines : list string) : bool :=
  match lines with
  | [] => false
  | line :: rest =>
      if bool_decide (Str.take 16 line = "The style file: ")
         && bool_decide (Some (Str.drop_last 4 (Str.drop 16 (Str.rstrip line))) ≠ cur)
      then true
      else style_changed_loop cur rest
  end.

Definition style_changed (w : World) : bool :=
  match fs w (base (self w) +:+ ".blg") with
  | None => false
  | Some log => style_changed_loop (style (self w)) (Str.readlines (f_data log))
  end.

(** ** Is a first run needed: [first_run_needed] *)

(** The loop over [self.db.values ()]. *)
Fixpoint db_modified (f : FileSystem) (dtime : Z) (dbs : list string)
  : result bool :=
  match dbs with
  | [] => Ok false
  | d :: rest =>
      t <~ getmtime f d;;
      if (t >? dtime)%Z then Ok true else db_modified f dtime rest
  end.

(** The loop over the lines of the tool log. *)
Definition has_error_marker (lines : list string) : bool :=
  existsb (λ line, bool_decide (is_Some (re_error line))) lines.

(** [open (path).readlines ()]. *)
Definition open_lines (f : FileSystem) (path : string) : result (list string) :=
  match f path with
  | Some x => Ok (Str.readlines (f_data x))
  | None => Raise (IOError path)
  end.

Definition first_run_needed (w : World) : result bool :=
  let s := self w in
  if negb (exists_file (fs w) (base s +:+ ".aux")) then Ok false
  else if negb (exists_file (fs w) (base s +:+ ".blg")) then Ok true
  else
    dtime <~ getmtime (fs w) (base s +:+ ".blg");;
    modified <~ db_modified (fs w) dtime (map_to_list (db s)).*2;;
    if modified : bool then Ok true
    else
      blg <~ open_lines (fs w) (base s +:+ ".blg");;
      if has_error_marker blg then Ok true
      else if style_changed w then Ok true
      else match bst_file s with
           | Some (String _ _ as bst) =>
               t <~ getmtime (fs w) bst;;
               if (t >? dtime)%Z then Ok true else Ok false
           | _ => Ok false
           end.

(** ** Deciding a rerun after a compilation: [bibtex_needed] *)

(** The loop over [new]: is there a citation that was not undefined
    before. *)
Fixpoint has_new_undef (old new : list string) : bool :=
  match new with
  | [] => false
  | cite :: rest =>
      if bool_decide (cite ∈ old) then has_new_undef old rest else true
  end.

(** The attribute [self.prev_dbs], which [pre_compile] assigns first. *)
Definition read_prev_dbs : M (option (list string)) :=
  reads (λ w, match prev_dbs (self w) with
              | Some v => Ok v
              | None => Raise (AttributeError "prev_dbs")
              end).

(** The end of [bibtex_needed], from the test on the tool log on. *)
Definition bibtex_needed_blg : M bool :=
  w <- gets id;;
  let blg := base (self w) +:+ ".blg" in
  if negb (exists_file (fs w) blg) then ret true
  else if bool_decide (undef_cites (self w) = Some []) then ret false
  else
    let log := src_base (doc w) +:+ ".log" in
    tb <- reads (λ w, getmtime (fs w) blg);;
    tl <- reads (λ w, getmtime (fs w) log);;
    if (tb <? tl)%Z then ret true else ret false.

(** The middle of [bibtex_needed]: the undefined citations. *)
Definition bibtex_needed_undefs : M bool :=
  old <- gets (λ w, undef_cites (self w));;
  if truthy old then
    new <- gets list_undefs;;
    if bool_decide (new = []) then
      on_self (set_undef_cites (Some new));;
      bibtex_needed_blg
    else if has_new_undef (default [] old) new then
      on_self (set_undef_cites (Some new));;
      ret true
    else
      on_self (set_undef_cites (Some new));;
      ret false
  else
    new <- gets list_undefs;;
    on_self (set_undef_cites (Some new));;
    bibtex_needed_blg.

Definition bibtex_needed : M bool :=
  pending <- gets (λ w, run_needed (self w));;
  if pending : bool then ret true
  else
    parsed <- reads parse_aux;;
    let '(new, dbs) := parsed in
    prev <- read_prev_dbs;;
    if bool_decide (prev ≠ None) && bool_decide (prev ≠ Some dbs) then
      on_self (set_prev_dbs (Some dbs));;
      on_self (set_used_cites (Some new));;
      undefs <- gets list_undefs;;
      on_self (set_undef_cites (Some undefs));;
      ret true
    else
      on_self (set_prev_dbs (Some dbs));;
      used <- gets (λ w, used_cites (self w));;
      if truthy used && bool_decide (Some new ≠ used) then
        on_self (set_used_cites (Some new));;
        undefs <- gets list_undefs;;
        on_self (set_undef_cites (Some undefs));;
        ret true
      else
        on_self (set_used_cites (Some new));;
        bibtex_needed_undefs.

(** ** Running the tool *)

Section Host.

(** [self.env.execute (cmd, env)] of the host: the exit status of the
    command and what it did to the files; [os.getenv]. *)
Variable execute :
  list string → gmap string string → FileSystem → Z * FileSystem.
Variable getenv : string → option string.

Definition env_execute (cmd : list string) (env : gmap string string) : M Z :=
  λ w, let '(status, f) := execute cmd env (fs w) in
       (Ok status, mkWorld f (doc w) (self w) (executed w ++ [cmd])).

(** The command line and the environment [run] gives the tool. *)
Definition bibtex_cmd (s : Module) : list string :=
  ["bibtex"; "--min-crossrefs=100"; base s].

Definition bibtex_env (s : Module) : gmap string string :=
  let env : gmap string string := ∅ in
  let env :=
    if bool_decide (length (bib_path s) ≠ 1)
    then <["BIBINPUTS" := Str.join ":" (bib_path s ++ [default "" (getenv "BIBINPUTS")])]> env
    else env in
  if bool_decide (length (bst_path s) ≠ 1)
  then <["BSTINPUTS" := Str.join ":" (bst_path s ++ [default "" (getenv "BSTINPUTS")])]> env
  else env.

Definition run : M Z :=
  s <- gets self;;
  status <- env_execute (bibtex_cmd s) (bibtex_env s);;
  if bool_decide (status ≠ 0%Z) then ret 1%Z
  else
    on_self (set_run_needed false);;
    on_doc (set_must_compile true);;
    ret 0%Z.

Definition pre_compile : M Z :=
  w <- gets id;;
  (if exists_file (fs w) (src_base (doc w) +:+ ".aux") then
     parsed <- reads parse_aux;;
     on_self (set_used_cites (Some parsed.1));;
     on_self (set_prev_dbs (Some parsed.2))
   else on_self (set_prev_dbs None));;
  (if bool_decide (log_lines (doc w) ≠ []) then
     undefs <- gets list_undefs;;
     on_self (set_undef_cites (Some undefs))
   else ret tt);;
  needed <- reads first_run_needed;;
  on_self (set_run_needed needed);;
  compiling <- gets (λ w, must_compile (doc w));;
  if compiling : bool then ret 0%Z
  else if needed : bool then run
  else
    let bbl := base (self w) +:+ ".bbl" in
    if exists_file (fs w) bbl then
      tb <- reads (λ w, getmtime (fs w) bbl);;
      tl <- reads (λ w, getmtime (fs w) (src_base (doc w) +:+ ".log"));;
      if (tb >? tl)%Z then on_doc (set_must_compile true);; ret 0%Z
      else ret 0%Z
    else ret 0%Z.

Definition post_compile : M Z :=
  needed <- bibtex_needed;;
  if needed : bool then run else ret 0%Z.

End Host.

(** ** Diagnostics from the tool log: [get_errors] *)

(** The values the generator handles: a string, an integer or [None]. *)
Inductive pyval :=
  | PNone
  | PInt (z : Z)
  | PStr (s : string).

Global Instance pyval_eq_dec : EqDecision pyval.
Proof. solve_decision. Defined.

(** How a generator ends: it is exhausted, or it raises. *)
Inductive gen_end :=
  | Exhausted
  | Raised (e : exn).

(** [string.strip (v)] calls [v.strip ()], which only a string has. *)
Definition string_strip (v : pyval) : result string :=
  match v with
  | PStr s => Ok (Str.strip s)
  | _ => Raise (AttributeError "strip")
  end.

(** [m.groupdict ()]. *)
Definition groupdict (m : error_match) : gmap string pyval :=
  <["line" := match m_line m with Some ds => PStr ds | None => PNone end]>
    (<["file" := PStr (m_file m)]> ∅).

(** The record built for the match [m], with the message [text]. *)
Definition error_record (table : gmap string string) (m : error_match)
    (text : string) : gmap string pyval :=
  let d : gmap string pyval :=
    <["pkg" := PStr "bibtex"]> (<["kind" := PStr "error"]> (<["text" := PStr text]> ∅)) in
  let d := groupdict m ∪ d in
  let file := m_file m in
  let file :=
    if bool_decide (Str.take_last 4 file = ".bib") then Str.drop_last 4 file
    else file in
  match table !! file with
  | Some path => <["file" := PStr path]> d
  | None =>
      match table !! (file +:+ ".bib") with
      | Some path => <["file" := PStr path]> d
      | None => d
      end
  end.

(** The loop of [get_errors]; [last_line] is a string at first, and after
    a marker it holds what the variable [line] was rebound to: the line
    number, or [None]. *)
Fixpoint get_errors_loop (table : gmap string string) (last_line : pyval)
    (lines : list string) : list (gmap string pyval) * gen_end :=
  match lines with
  | [] => ([], Exhausted)
  | line :: rest =>
      match re_error line with
      | Some m =>
          let text :=
            if bool_decide (m_start m = 0) then string_strip last_line
            else Ok (Str.strip (Str.take (m_start m) line)) in
          match text with
          | Raise e => ([], Raised e)
          | Ok text =>
              let line :=
                match m_line m with
                | Some ds => if bool_decide (ds ≠ "") then PInt (Str.int ds) else PStr ds
                | None => PNone
                end in
              let '(ds, e) := get_errors_loop table line rest in
              (error_record table m text :: ds, e)
          end
      | None => get_errors_loop table (PStr line) rest
      end
  end.

Definition get_errors (w : World) : list (gmap string pyval) * gen_end :=
  match fs w (base (self w) +:+ ".blg") with
  | None => ([], Exhausted)
  | Some log => get_errors_loop (db (self w)) (PStr "") (Str.readlines (f_data log))
  end.

(** ** Definitions for the statements *)

(** The lines of the registry files, in the order [parse_aux] reads
    them. *)
Definition aux_lines (f : FileSystem) (names : list string) : list string :=
  names ≫= λ n, match f n with
                | Some x => Str.readlines (f_data x)
                | None => []
                end.

(** The keys of the citation lines, and the names of the database
    lines, in the order of the lines. *)
Definition citation_keys (lines : list string) : list string :=
  omap re_citation lines.

Definition bibdata_names (lines : list string) : list string :=
  omap re_bibdata lines ≫= Str.split ","%char.

(** The keys of the citation lines as the specification reads them: the
    text between the braces is a list of keys separated by commas, and
    every key of that list counts.  The code has no such step; the
    definition is there to compare [parse_aux] with that reading. *)
Definition comma_free_keys (lines : list string) : list string :=
  omap re_citation lines ≫= Str.split ","%char.

(** The distinct elements of a list in the order of their first
    occurrence: the head, then the rest without it. *)
Fixpoint first_occurrences (l : list string) : list string :=
  match l with
  | [] => []
  | x :: r => x :: filter (λ y, y ≠ x) (first_occurrences r)
  end.

(** What the loop does to the list of the keys seen so far. *)
Definition add_key (ks : list string) (k : string) : list string :=
  if bool_decide (k ∈ ks) then ks else ks ++ [k].

(** The keys [ks] with the numbers the loop gives them after [n]. *)
Fixpoint number (n : Z) (ks : list string) : list (Z * string) :=
  match ks with
  | [] => []
  | k :: r => ((n + 1)%Z, k) :: number (n + 1) r
  end.

Definition swap {A B} (p : A * B) : B * A := (p.2, p.1).

(** The state a complete evaluation of [bibtex_needed] leaves: the
    databases, the cited keys and the undefined citations just read. *)
Definition observed (new dbs : list string) (w : World) : World :=
  with_self
    (set_undef_cites (Some (list_undefs w))
       (set_used_cites (Some new) (set_prev_dbs (Some dbs) (self w)))) w.

(** The tool log of the two lines [Warning--foo] and
    [---line 7 of file refs.bib], with what ends its last line. *)
Definition two_lines (tail : string) : string :=
  "Warning--foo" +:+ String Str.newline ""
  +:+ "---line 7 of file refs.bib" +:+ tail.

(** The path given for the file [refs.bib] of the tool log: the path of
    the database [refs], else the path of a database declared as
    [refs.bib], else the name as the log has it. *)
Definition resolved_refs (table : gmap string string) : string :=
  match table !! "refs" with
  | Some path => path
  | None =>
      match table !! "refs.bib" with
      | Some path => path
      | None => "refs.bib"
      end
  end.

(** ** Definitions for the further properties *)

(** The end of a line. *)
Definition eol : string := String Str.newline "".

(** The character [c] occurs in [s]. *)
Fixpoint occurs (c : ascii) (s : string) : bool :=
  match s with
  | EmptyString => false
  | String a s' => Str.eqb_ascii a c || occurs c s'
  end.

(** The lines that LaTeX writes to the registry for a citation and for
    the databases, the warning of its log for an undefined citation with
    the text [rest] after the key, and the line of the tool log that
    reports the style. *)
Definition citation_line (key : string) : string :=
  "\citation{" +:+ key +:+ "}" +:+ eol.

Definition bibdata_line (names : list string) : string :=
  "\bibdata{" +:+ Str.join "," names +:+ "}" +:+ eol.

Definition undef_warning (key rest : string) : string :=
  "LaTeX Warning: Citation `" +:+ key +:+ "' " +:+ rest.

Definition style_line (name : string) : string :=
  "The style file: " +:+ name +:+ ".bst" +:+ eol.

(** What LaTeX writes to a registry file: citations and lists of
    databases, one on each line. *)
Inductive aux_entry :=
  | Citation (key : string)
  | Bibdata (names : list string).

Definition aux_entry_line (e : aux_entry) : string :=
  match e with
  | Citation key => citation_line key
  | Bibdata names => bibdata_line names
  end.

Definition write_aux (es : list aux_entry) : string :=
  foldr (λ e s, aux_entry_line e +:+ s) "" es.

Definition entry_keys (es : list aux_entry) : list string :=
  omap (λ e, match e with Citation key => Some key | Bibdata _ => None end) es.

Definition entry_names (es : list aux_entry) : list string :=
  es ≫= λ e, match e with Citation _ => [] | Bibdata names => names end.

(** A key has no newline; a list of databases has a name at least, and
    its names have no comma and no newline. *)
Definition aux_entry_ok (e : aux_entry) : Prop :=
  match e with
  | Citation key => occurs Str.newline key = false
  | Bibdata names =>
      names ≠ [] ∧
      Forall (λ n, occurs ","%char n = false ∧ occurs Str.newline n = false) names
  end.

(** The line of an entry without its newline. *)
Definition aux_entry_body (e : aux_entry) : string :=
  match e with
  | Citation key => "\citation{" +:+ key +:+ "}"
  | Bibdata names => "\bibdata{" +:+ Str.join "," names +:+ "}"
  end.

(** A warning is well made when its key and the text after it have no
    newline, and that text has [undefined] and no quote. *)
Definition warning_ok (p : string * string) : Prop :=
  occurs Str.newline p.1 = false ∧ occurs Str.newline p.2 = false ∧
  occurs "'"%char p.2 = false ∧ Str.contains "undefined" p.2 = true.

(** A file made of lines, given without their newlines. *)
Definition write_lines (bodies : list string) : string :=
  foldr (λ b s, (b +:+ eol) +:+ s) "" bodies.

(** A line of the tool log that does not report the style. *)
Definition other_line (b : string) : Prop :=
  occurs Str.newline b = false ∧ Str.take 16 b ≠ "The style file: ".

(** What the first lines of [pre_compile] leave, up to the test on
    [must_compile]: the registry and the undefined citations are read,
    and the answer of [first_run_needed] is kept in [run_needed]. *)
Definition loaded (w : World) (needed : bool) : World :=
  let s1 :=
    if exists_file (fs w) (src_base (doc w) +:+ ".aux")
    then match parse_aux w with
         | Ok parsed =>
             set_prev_dbs (Some parsed.2) (set_used_cites (Some parsed.1) (self w))
         | Raise _ => self w
         end
    else set_prev_dbs None (self w) in
  let s2 :=
    if bool_decide (log_lines (doc w) ≠ [])
    then set_undef_cites (Some (list_undefs w)) s1
    else s1 in
  with_self (set_run_needed needed s2) w.

(** The shape of a record of [get_errors]: the package and the kind,
    a text, a file name, and for line the digits of the log or [None]. *)
Definition error_record_ok (d : gmap string pyval) : Prop :=
  d !! "pkg" = Some (PStr "bibtex") ∧
  d !! "kind" = Some (PStr "error") ∧
  (∃ text, d !! "text" = Some (PStr text)) ∧
  (∃ file, d !! "file" = Some (PStr file)) ∧
  (d !! "line" = Some PNone ∨ ∃ digits, d !! "line" = Some (PStr digits)) ∧
  ∀ key, is_Some (d !! key) → key ∈ ["pkg"; "kind"; "text"; "file"; "line"].

(** ** Builds used as examples *)

Module Examples.

Definition nl : string := String Str.newline "".

(** A file system given by the list of its files. *)
Definition files (l : list (string * File)) : FileSystem :=
  λ path, (list_to_map l : gmap string File) !! path.

Definition host (aux : list string) (log : list string) : Doc :=
  mkDoc "main" "/doc" (λ path, path) aux log false ∅ [].

(** Two database lines that name [a] twice. *)
Definition fs_dup : FileSystem :=
  files [("main.aux",
          mkFile 10 ("\citation{x}" +:+ nl +:+ "\bibdata{b,a}" +:+ nl
                     +:+ "\bibdata{a}" +:+ nl))].

Definition w_dup : World := init fs_dup (host ["main.aux"] []) "/doc" None.

(** Citations [x], [y], [x] and the databases [a] and [b]. *)
Definition fs_cites : FileSystem :=
  files [("main.aux",
          mkFile 10 ("\bibdata{a,b}" +:+ nl +:+ "\citation{x}" +:+ nl
                     +:+ "\citation{y}" +:+ nl +:+ "\citation{x}" +:+ nl))].

Definition w_cites : World :=
  (do_sorted "no" (init fs_cites (host ["main.aux"] []) "/doc" None)).2.

(** In insertion mode, a citation line with two keys between its
    braces, and then a line for each of the two. *)
Definition fs_comma : FileSystem :=
  files [("main.aux",
          mkFile 10 ("\citation{x,y}" +:+ nl +:+ "\citation{x}" +:+ nl
                     +:+ "\citation{y}" +:+ nl))].

Definition w_comma : World :=
  (do_sorted "no" (init fs_comma (host ["main.aux"] []) "/doc" None)).2.

Definition comma_lines : list string :=
  aux_lines (fs w_comma) (aux_md5 (doc w_comma)).

(** In insertion mode, citations in an order that is not the sorted
    one, two of them twice, over two registry files. *)
Definition fs_order : FileSystem :=
  files [("main.aux",
          mkFile 10 ("\citation{y}" +:+ nl +:+ "\bibdata{refs}" +:+ nl
                     +:+ "\citation{x,y}" +:+ nl +:+ "\citation{y}" +:+ nl));
         ("intro.aux",
          mkFile 11 ("\citation{x}" +:+ nl +:+ "\citation{x,y}" +:+ nl))].

Definition w_order : World :=
  (do_sorted "no"
     (init fs_order (host ["main.aux"; "intro.aux"] []) "/doc" None)).2.

(** No registry and no tool log yet. *)
Definition w_norun : World := init (files []) (host ["main.aux"] []) "/doc" None.

(** A registry and no tool log. *)
Definition w_first : World :=
  init (files [("main.aux", mkFile 10 ("\bibdata{refs}" +:+ nl))])
       (host ["main.aux"] []) "/doc" None.

(** A tool log without error marker, newer than the database and the
    style file, that reports the style [reported]. *)
Definition fs_log (reported : string) : FileSystem :=
  files [("main.aux", mkFile 10 ("\bibdata{refs}" +:+ nl));
         ("main.blg", mkFile 20 ("This is BibTeX" +:+ nl +:+
                                 "The style file: " +:+ reported +:+ ".bst" +:+ nl));
         ("/doc/refs.bib", mkFile 5 "");
         ("/doc/plain.bst", mkFile 3 "")].

Definition w_clean : World :=
  (add_db "refs" (init (fs_log "plain") (host ["main.aux"] []) "/doc" None)).2.

Definition w_style : World :=
  (add_db "refs" (init (fs_log "alpha") (host ["main.aux"] []) "/doc" None)).2.

(** A tool that fails and changes no file, and one that writes its
    log and succeeds. *)
Definition failing_tool
  : list string → gmap string string → FileSystem → Z * FileSystem :=
  λ _ _ f, (2%Z, f).

Definition working_tool
  : list string → gmap string string → FileSystem → Z * FileSystem :=
  λ _ _ f, (0%Z, λ path, if bool_decide (path = "main.blg")
                          then Some (mkFile 30 ("This is BibTeX" +:+ nl))
                          else f path).

Definition no_env : string → option string := λ _, None.

(** The registry and the tool log are there, nothing asks for a run;
    the compiled bibliography is of time [tb], the main log of time 15. *)
Definition fs_bbl (tb : Z) : FileSystem :=
  files [("main.aux", mkFile 10 ("\bibdata{refs}" +:+ nl));
         ("main.blg", mkFile 20 ("The style file: plain.bst" +:+ nl));
         ("main.bbl", mkFile tb "");
         ("main.log", mkFile 15 "");
         ("/doc/refs.bib", mkFile 5 "")].

Definition w_bbl (tb : Z) : World :=
  (add_db "refs" (init (fs_bbl tb) (host ["main.aux"] []) "/doc" None)).2.

(** A first build: the main log of an earlier build reports [x]
    undefined, there is no registry and no tool log.  After
    [pre_compile] the compilation writes the registry. *)
Definition undef_x : string :=
  "LaTeX Warning: Citation `x' on page 1 undefined on input line 3.".

Definition fs_compiled : FileSystem :=
  files [("main.aux", mkFile 12 ("\citation{x}" +:+ nl +:+ "\bibdata{refs}" +:+ nl));
         ("main.log", mkFile 12 "")].

Definition w_post : World :=
  with_fs fs_compiled
    (pre_compile failing_tool no_env
       (init (files [("main.log", mkFile 8 "")])
             (host ["main.aux"] [undef_x]) "/doc" None)).2.

(** The same build with a main log that reports no undefined
    citation. *)
Definition w_quiet : World :=
  with_fs fs_compiled
    (pre_compile failing_tool no_env
       (init (files []) (host ["main.aux"] []) "/doc" None)).2.

(** The host has asked for a compilation, so that [pre_compile] leaves
    the run it found needed pending. *)
Definition w_pending : World :=
  (pre_compile failing_tool no_env
     (with_doc (set_must_compile true (doc w_first)) w_first)).2.

(** Two style files in the directory of the document; the names
    without directory are the same files, seen from that directory. *)
Definition fs_local : FileSystem :=
  files [("/doc/plain.bst", mkFile 1 ""); ("plain.bst", mkFile 1 "");
         ("/doc/alpha.bst", mkFile 2 ""); ("alpha.bst", mkFile 2 "")].

Definition w_local : World :=
  (set_style "alpha" (init fs_local (host ["main.aux"] []) "/doc" None)).2.

(** Two style files in a directory given by the command [stylepath]. *)
Definition fs_styles : FileSystem :=
  files [("/styles/fancy.bst", mkFile 1 ""); ("/styles/alpha.bst", mkFile 2 "")].

Definition w_styles : World :=
  (set_style "alpha"
     (set_style "fancy"
        (do_stylepath "/styles"
           (init fs_styles (host ["main.aux"] []) "/doc" None)).2).2).2.

(** A database declared under the name [refs.bib]. *)
Definition w_bibbib : World :=
  (add_db "refs.bib"
     (init (files [("main.blg", mkFile 20 (two_lines nl));
                   ("/doc/refs.bib.bib", mkFile 5 "")])
           (host ["main.aux"] []) "/doc" None)).2.

(** A registry written from its entries; the second citation holds a
    comma. *)
Definition written : list aux_entry :=
  [Citation "knuth84"; Bibdata ["refs"; "books"]; Citation "a,b";
   Citation "knuth84"; Bibdata ["books"]].

Definition w_written : World :=
  (do_sorted "no"
     (init (files [("main.aux", mkFile 10 (write_aux written))])
           (host ["main.aux"] []) "/doc" None)).2.

(** A main log with two warnings for the key [it's] and one for [x]. *)
Definition warnings : list (string * string) :=
  [("it's", "on page 3 undefined on input line 12.");
   ("x", "on page 1 undefined on input line 3.");
   ("it's", "on page 4 undefined on input line 40.")].

Definition w_warnings : World :=
  init (files []) (host ["main.aux"] ((λ p, undef_warning p.1 p.2) <$> warnings))
       "/doc" None.

(** The database [refs] is in the second directory of the search path
    only. *)
Definition w_two_dirs : World :=
  (do_path "/bib"
     (init (files [("/bib/refs.bib", mkFile 5 "")])
           (host ["main.aux"] []) "/doc" None)).2.

(** The module of a host whose directory is given by the empty name:
    the style files of that directory are named without a directory. *)
Definition w_relative : World :=
  init (files [("plain.bst", mkFile 1 ""); ("alpha.bst", mkFile 2 "");
               ("/doc/main.tex", mkFile 3 "")])
       (mkDoc "main" "" (λ path, path) ["main.aux"] [] false
              {["/doc/main.tex" := mkLeaf "/doc/main.tex"]} [])
       "" None.


(** A compiled bibliography is on disk, the main log is not, and there
    is no registry. *)
Definition w_no_log : World :=
  init (files [("main.bbl", mkFile 3 "")]) (host ["main.aux"] []) "/doc" None.

(** After a first evaluation for the registry of [w_post], the document
    cites [y] too. *)
Definition w_more_cites : World :=
  with_fs (files [("main.aux",
                   mkFile 14 ("\citation{x}" +:+ nl +:+ "\citation{y}" +:+ nl
                              +:+ "\bibdata{refs}" +:+ nl));
                  ("main.log", mkFile 14 "")])
          (bibtex_needed w_post).2.

(** After a run of the tool and a compilation: the tool log is there
    and the main log has no warning. *)
Definition w_resolved : World :=
  with_fs (files [("main.aux", mkFile 12 ("\citation{x}" +:+ nl +:+ "\bibdata{refs}" +:+ nl));
                  ("main.blg", mkFile 13 ("This is BibTeX" +:+ nl));
                  ("main.log", mkFile 14 "")])
          (with_doc (host ["main.aux"] []) (bibtex_needed w_post).2).

(** The main log now reports [y] undefined, and [x] was the one
    undefined citation before. *)
Definition w_new_undef : World :=
  with_doc (host ["main.aux"]
              [undef_warning "y" "on page 2 undefined on input line 9."])
           (bibtex_needed w_post).2.

(** The registry of [w_post] and a tool log of time [tb], with a main
    log of time 12 that reports [x] undefined; no undefined citation is
    kept from before. *)
Definition w_stale (tb : Z) : World :=
  with_fs (files [("main.aux", mkFile 12 ("\citation{x}" +:+ nl +:+ "\bibdata{refs}" +:+ nl));
                  ("main.blg", mkFile tb ("This is BibTeX" +:+ nl));
                  ("main.log", mkFile 12 "")])
          (with_doc (host ["main.aux"] [undef_x])
             (pre_compile failing_tool no_env
                (init (files []) (host ["main.aux"] []) "/doc" None)).2).

(** A tool log with two errors of which the second has no message on
    its own line. *)
Definition w_two_markers : World :=
  with_fs (files [("main.blg",
                   mkFile 20 (write_lines
                     ["This is BibTeX";
                      "I was expecting a `,' or a `}'---line 4 of file refs.bib";
                      "---line 9 of file refs.bib";
                      "(There were 2 error messages)"]))])
          w_first.

End Examples.

(** * Properties *)

(** ** The registry parser *)

Global Instance pair_le_trans : Transitive pair_le.
Proof.
  intros [a x] [b y] [c z]; unfold pair_le; simpl.
  intros [?|[-> ?]] [?|[-> ?]]; [left; lia | by left | by left |].
  right; split; [done | by etrans].
Qed.

Global Instance pair_le_total : Total pair_le.
Proof.
  intros [a x] [b y]; unfold pair_le; simpl.
  destruct (Z.lt_trichotomy a b) as [?|[->|?]]; [by left; left | | by right; left].
  destruct (total String.le x y); [left | right]; by right.
Qed.

Global Instance pair_le_antisym : AntiSymm (=) pair_le.
Proof.
  intros [a x] [b y]; unfold pair_le; simpl.
  intros [?|[-> ?]] [?|[? ?]]; try lia.
  f_equal. by apply (anti_symm String.le).
Qed.

Lemma strip_prefix_app p : ∀ s r,
  Str.strip_prefix p s = Some r → s = p +:+ r.
Proof.
  induction p as [|a p IH]; intros s r.
  { destruct s; simpl; intros [= <-]; reflexivity. }
  destruct s as [|b s]; simpl; [done|].
  unfold Str.eqb_ascii. case_bool_decide as Hab; [|done].
  intros ->%IH. rewrite Hab. reflexivity.
Qed.

Lemma re_citation_not_bibdata line cite :
  re_citation line = Some cite → re_bibdata line = None.
Proof.
  unfold re_citation, re_bibdata.
  destruct (Str.strip_prefix _ line) as [r|] eqn:Hr; [|done].
  apply strip_prefix_app in Hr as ->. done.
Qed.

Lemma parse_files_fold f names : ∀ acc,
  (∀ n, n ∈ names → is_Some (f n)) →
  parse_files f acc names = Ok (foldl parse_line acc (aux_lines f names)).
Proof.
  induction names as [|n names IH]; intros acc Hall; [done|].
  destruct (Hall n) as [x Hx]; [left|].
  unfold aux_lines. rewrite bind_cons, Hx, foldl_app. simpl. rewrite Hx.
  apply IH. intros m Hm. apply Hall. by right.
Qed.

Lemma parse_files_missing f names : ∀ acc r,
  parse_files f acc names = Ok r → ∀ n, n ∈ names → is_Some (f n).
Proof.
  induction names as [|n names IH]; intros acc r Hr m Hm.
  - by apply elem_of_nil in Hm.
  - simpl in Hr. destruct (f n) eqn:Hn; [|done].
    apply elem_of_cons in Hm as [->|Hm]; [by rewrite Hn | by eapply IH].
Qed.

(** The database names: the loop appends the names of each line. *)
Lemma parse_line_dbs lines : ∀ last cites dbs,
  (foldl parse_line (last, cites, dbs) lines).2 = dbs ++ bibdata_names lines.
Proof.
  unfold bibdata_names.
  induction lines as [|line lines IH]; intros last cites dbs; simpl.
  { by rewrite app_nil_r. }
  destruct (re_citation line) as [cite|] eqn:Hc.
  - rewrite (re_citation_not_bibdata _ _ Hc).
    destruct (cites !! cite); apply IH.
  - destruct (re_bibdata line) as [data|]; [|apply IH].
    rewrite IH. simpl. by rewrite <- app_assoc.
Qed.

(** The citation keys: the dictionary holds the keys seen, numbered in
    the order they were first seen. *)
Lemma number_snoc ks k : ∀ n,
  number n (ks ++ [k]) = number n ks ++ [((n + Z.of_nat (length ks) + 1)%Z, k)].
Proof.
  induction ks as [|x ks IH]; intros n; simpl.
  - do 2 f_equal. lia.
  - rewrite IH. do 4 f_equal. lia.
Qed.

Lemma number_snd ks : ∀ n, (number n ks).*2 = ks.
Proof. induction ks as [|x ks IH]; intros n; simpl; [done | by rewrite IH]. Qed.

Lemma number_swap_fst ks n : (swap <$> number n ks).*1 = ks.
Proof.
  rewrite <- list_fmap_compose. rewrite <- (number_snd ks n) at 2.
  by apply list_fmap_ext.
Qed.

Lemma number_lt ks : ∀ n p, p ∈ number n ks → (n < p.1)%Z.
Proof.
  induction ks as [|x ks IH]; intros n p Hp; simpl in Hp.
  - by apply elem_of_nil in Hp.
  - apply elem_of_cons in Hp as [->|Hp]; simpl; [lia|].
    apply IH in Hp. lia.
Qed.

Lemma number_sorted ks : ∀ n, StronglySorted pair_le (number n ks).
Proof.
  induction ks as [|x ks IH]; intros n; simpl; constructor; [apply IH|].
  apply Forall_forall. intros p Hp. left. simpl. by apply number_lt in Hp.
Qed.

Lemma parse_line_cites lines : ∀ ks dbs,
  NoDup ks →
  (foldl parse_line
     (Z.of_nat (length ks), list_to_map (swap <$> number 0 ks), dbs) lines).1
  = let ks' := foldl add_key ks (citation_keys lines) in
    (Z.of_nat (length ks'), list_to_map (swap <$> number 0 ks')).
Proof.
  unfold citation_keys.
  induction lines as [|line lines IH]; intros ks dbs Hks; simpl; [done|].
  destruct (re_citation line) as [cite|] eqn:Hc; simpl.
  - unfold add_key at 2 4. case_bool_decide as Hin.
    + destruct (list_to_map (swap <$> number 0 ks) !! cite) eqn:Hl; [by apply IH|].
      apply not_elem_of_list_to_map in Hl. by rewrite number_swap_fst in Hl.
    + assert (list_to_map (swap <$> number 0 ks) !! cite = (None : option Z)) as ->.
      { apply not_elem_of_list_to_map. by rewrite number_swap_fst. }
      etrans; [|apply (IH (ks ++ [cite]) dbs)].
      * rewrite number_snoc, fmap_app, length_app.
        change (swap <$> [(?a, ?b)]) with [(b, a)].
        rewrite list_to_map_snoc; [|by rewrite number_swap_fst].
         replace (Z.of_nat (length ks + length [cite]))
          with (Z.of_nat (length ks) + 1)%Z by (simpl; lia).
        by replace (0 + Z.of_nat (length ks) + 1)%Z
          with (Z.of_nat (length ks) + 1)%Z by lia.
      * apply NoDup_app. split_and!; [done | | apply NoDup_singleton].
        intros x Hx ->%list_elem_of_singleton. done.
  - destruct (re_bibdata line); by apply IH.
Qed.

(** [first_occurrences] and the loop agree. *)
Lemma first_occurrences_filter (P : string → Prop) `{∀ x, Decision (P x)} l :
  first_occurrences (filter P l) = filter P (first_occurrences l).
Proof.
  induction l as [|x l IH]; [done|].
  destruct (decide (P x)) as [HP|HP].
  - rewrite filter_cons_True by done. simpl.
    rewrite filter_cons_True by done. f_equal. rewrite IH.
    rewrite !list_filter_filter. apply list_filter_iff. naive_solver.
  - rewrite filter_cons_False by done. simpl.
    rewrite filter_cons_False by done. rewrite IH.
    rewrite list_filter_filter. apply list_filter_iff.
    intros y. split; [|naive_solver]. intros Hy. split; [done|]. by intros ->.
Qed.

Lemma add_key_fold gs : ∀ ks,
  foldl add_key ks gs = ks ++ first_occurrences (filter (λ g, g ∉ ks) gs).
Proof.
  induction gs as [|g gs IH]; intros ks; simpl.
  { by rewrite app_nil_r. }
  unfold add_key at 2. case_bool_decide as Hin.
  - rewrite filter_cons_False by naive_solver. apply IH.
  - rewrite filter_cons_True by done. simpl.
    rewrite IH, <- app_assoc. simpl. do 2 f_equal.
    rewrite <- first_occurrences_filter, list_filter_filter.
    f_equal. apply list_filter_iff. intros y.
    rewrite elem_of_app, list_elem_of_singleton. naive_solver.
Qed.

Lemma add_key_fold_nil gs : foldl add_key [] gs = first_occurrences gs.
Proof.
  rewrite add_key_fold. simpl. f_equal.
  induction gs as [|g gs IH]; [done|].
  rewrite filter_cons_True; [by f_equal | apply not_elem_of_nil].
Qed.

Lemma first_occurrences_elem_of l x : x ∈ first_occurrences l ↔ x ∈ l.
Proof.
  induction l as [|y l IH]; simpl; [done|].
  rewrite !elem_of_cons, list_elem_of_filter, IH.
  destruct (decide (x = y)); naive_solver.
Qed.

Lemma first_occurrences_NoDup l : NoDup (first_occurrences l).
Proof.
  induction l as [|y l IH]; simpl; constructor.
  - rewrite list_elem_of_filter. naive_solver.
  - by apply NoDup_filter.
Qed.

(** A key that comes again keeps its place, a new one goes to the end. *)
Lemma first_occurrences_snoc l k :
  first_occurrences (l ++ [k]) = add_key (first_occurrences l) k.
Proof. by rewrite <- !add_key_fold_nil, foldl_app. Qed.

Lemma first_occurrences_prefix l1 l2 :
  first_occurrences l1 `prefix_of` first_occurrences (l1 ++ l2).
Proof.
  rewrite <- (add_key_fold_nil (l1 ++ l2)), foldl_app, add_key_fold_nil.
  rewrite add_key_fold. by eexists.
Qed.

(** Sorting the numbered pairs gives the keys back in the order of their
    numbers, whatever the order in which the dictionary lists them. *)
Lemma sort_numbered ks :
  NoDup ks →
  merge_sort pair_le (swap <$> map_to_list (list_to_map (swap <$> number 0 ks) : gmap string Z))
  = number 0 ks.
Proof.
  intros Hks. apply (StronglySorted_unique pair_le).
  - apply (StronglySorted_merge_sort pair_le).
  - apply number_sorted.
  - rewrite merge_sort_Permutation, map_to_list_to_map
      by (by rewrite number_swap_fst).
    rewrite <- list_fmap_compose.
    rewrite (list_fmap_ext (swap ∘ swap) id (number 0 ks));
      [by rewrite list_fmap_id|].
    by intros _ [] _.
Qed.
(** [parse_aux] returns when every registry file can be opened. *)
Lemma parse_aux_ok w :
  (∀ n, n ∈ aux_md5 (doc w) → is_Some (fs w n)) →
  ∃ cites dbs, parse_aux w = Ok (cites, dbs).
Proof.
  intros Hall. unfold parse_aux. rewrite (parse_files_fold _ _ _ Hall).
  destruct (foldl parse_line _ _) as [[last cites] dbs].
  destruct (sorted (self w)); by eexists _, _.
Qed.

(** C1, as the code has it: the list of database names that [parse_aux]
    returns is sorted for the lexicographic order, and it holds every
    name of every database line, as many times as the lines name it. *)
Theorem parse_aux_dbs_sorted w :
  (∀ n, n ∈ aux_md5 (doc w) → is_Some (fs w n)) →
  ∃ cites dbs,
    parse_aux w = Ok (cites, dbs) ∧
    StronglySorted String.le dbs ∧
    dbs ≡ₚ bibdata_names (aux_lines (fs w) (aux_md5 (doc w))).
Proof.
  intros Hall. unfold parse_aux.
  rewrite (parse_files_fold _ _ _ Hall).
  pose proof (parse_line_dbs (aux_lines (fs w) (aux_md5 (doc w))) 0 ∅ []) as Hdbs.
  destruct (foldl parse_line _ _) as [[last cites] dbs]. simpl in Hdbs. subst dbs.
  destruct (sorted (self w)); eexists _, _; (split; [done|]); split.
  all: try apply (StronglySorted_merge_sort String.le).
  all: apply merge_sort_Permutation.
Qed.

Lemma parse_aux_dbs_sorted_witness :
  ∃ cites dbs,
    parse_aux Examples.w_cites = Ok (cites, dbs) ∧
    StronglySorted String.le dbs ∧
    dbs ≡ₚ bibdata_names (aux_lines (fs Examples.w_cites) (aux_md5 (doc Examples.w_cites))).
Proof.
  apply (parse_aux_dbs_sorted Examples.w_cites).
  intros n Hn. apply list_elem_of_singleton in Hn as ->. vm_compute. eauto.
Defined.

(** C1, the claim as it was written fails: a name that two database
    lines give is twice in the list. *)
Lemma parse_aux_dbs_duplicates :
  parse_aux Examples.w_dup = Ok (["x"], ["a"; "a"; "b"]) ∧
  ¬ NoDup ["a"; "a"; "b"].
Proof.
  split; [by vm_compute|].
  intros Hnd. apply NoDup_cons in Hnd as [Hin _]. apply Hin. left.
Qed.

(** ** Strings and citation lines *)

Lemma app_cons a s t : String a s +:+ t = String a (s +:+ t).
Proof. reflexivity. Qed.

Lemma app_empty t : "" +:+ t = t.
Proof. reflexivity. Qed.

Lemma strip_prefix_append p r : Str.strip_prefix p (p +:+ r) = Some r.
Proof.
  induction p as [|a p IH]; [by destruct r|].
  rewrite app_cons. simpl. unfold Str.eqb_ascii.
  by rewrite bool_decide_true.
Qed.

Lemma dot_star_line s t :
  occurs Str.newline s = false → Str.dot_star (s +:+ String Str.newline t) = s.
Proof.
  induction s as [|a s IH]; intros Hs.
  - reflexivity.
  - rewrite app_cons. simpl in *. apply orb_false_iff in Hs as [Ha Hs].
    rewrite Ha. f_equal. by apply IH.
Qed.

Lemma dot_star_id s : occurs Str.newline s = false → Str.dot_star s = s.
Proof.
  induction s as [|a s IH]; intros Hs; [done|].
  simpl in *. apply orb_false_iff in Hs as [Ha Hs]. rewrite Ha. f_equal. auto.
Qed.

Lemma occurs_app c s t : occurs c (s +:+ t) = occurs c s || occurs c t.
Proof.
  induction s as [|a s IH]; [done|].
  rewrite app_cons. simpl. by rewrite IH, orb_assoc.
Qed.

Lemma upto_last_closing c s : Str.upto_last c (s +:+ String c "") = Some s.
Proof.
  induction s as [|a s IH].
  - rewrite app_empty. simpl. unfold Str.eqb_ascii. by rewrite bool_decide_true.
  - rewrite app_cons. simpl. by rewrite IH.
Qed.

Lemma app_assoc_str s t u : (s +:+ t) +:+ u = s +:+ t +:+ u.
Proof. induction s as [|a s IH]; [done|]. rewrite !app_cons. by f_equal. Qed.

(** A citation line gives its key back, whatever the key is made of but
    a newline: braces and commas in the key are part of it. *)
Lemma re_citation_line key :
  occurs Str.newline key = false →
  re_citation (citation_line key) = Some key.
Proof.
  intros Hkey. unfold re_citation, citation_line.
  rewrite strip_prefix_append. simpl.
  change ("}" +:+ eol) with (String "}" "" +:+ String Str.newline "").
  rewrite <- app_assoc_str, dot_star_line.
  - apply upto_last_closing.
  - rewrite occurs_app, Hkey. reflexivity.
Qed.

(** C7, as the code has it: in insertion mode the list of keys that
    [parse_aux] returns is the list of the keys of the citation lines in
    the order of their first occurrence, where the key of a citation
    line is the whole text between its braces, commas included: the
    list has no duplicate, it has the keys of the lines and no other,
    the text between the braces of every citation line is in it as it
    stands, and the list for the first lines of the registry is the
    beginning of the list for the whole registry, so a key that comes
    again keeps its place.  [parse_aux] returns that list when every
    registry file can be opened, and it returns no list otherwise. *)
Theorem parse_aux_insertion_order w :
  sorted (self w) = false →
  let lines := aux_lines (fs w) (aux_md5 (doc w)) in
  let keys := citation_keys lines in
  ((∀ n, n ∈ aux_md5 (doc w) → is_Some (fs w n)) →
   ∃ cites dbs,
     parse_aux w = Ok (cites, dbs) ∧
     cites = first_occurrences keys ∧
     NoDup cites ∧
     (∀ k, k ∈ cites ↔ k ∈ keys) ∧
     (∀ k, occurs Str.newline k = false → citation_line k ∈ lines → k ∈ cites) ∧
     (∀ l1 l2, keys = l1 ++ l2 → first_occurrences l1 `prefix_of` cites)) ∧
  (∀ r, parse_aux w = Ok r → ∀ n, n ∈ aux_md5 (doc w) → is_Some (fs w n)).
Proof.
  intros Hmode lines keys. split; cycle 1.
  { intros r Hr. unfold parse_aux in Hr.
    destruct (parse_files _ _ _) as [st|e] eqn:Hp; [|done].
    by eapply parse_files_missing. }
  intros Hall. unfold parse_aux.
  rewrite (parse_files_fold _ _ _ Hall), Hmode.
  pose proof (parse_line_cites (aux_lines (fs w) (aux_md5 (doc w))) [] []
                (NoDup_nil_2 : NoDup [])) as Hc.
  simpl in Hc. fold lines in Hc. fold keys in Hc. rewrite add_key_fold_nil in Hc.
  change (list_to_map []) with (∅ : gmap string Z) in Hc.
  fold lines.
  destruct (foldl parse_line _ _) as [[last cites] dbs].
  injection Hc as _ ->.
  eexists _, _. split; [done|].
  change (λ cn : string * Z, (cn.2, cn.1)) with (@swap string Z).
  rewrite sort_numbered by apply first_occurrences_NoDup.
  rewrite number_snd. split_and!.
  - done.
  - apply first_occurrences_NoDup.
  - apply first_occurrences_elem_of.
  - intros k Hk Hin. apply first_occurrences_elem_of.
    unfold keys, citation_keys. apply list_elem_of_omap.
    exists (citation_line k). split; [done|]. by apply re_citation_line.
  - intros l1 l2 ->. apply first_occurrences_prefix.
Qed.

Lemma parse_aux_insertion_order_witness :
  ∃ cites dbs,
    parse_aux Examples.w_order = Ok (cites, dbs) ∧
    cites = ["y"; "x,y"; "x"] ∧ dbs = ["refs"].
Proof.
  destruct (proj1 (parse_aux_insertion_order Examples.w_order eq_refl))
    as (cites & dbs & Hp & Hc & _).
  - intros n Hn. apply elem_of_cons in Hn as [->|Hn].
    + vm_compute. eauto.
    + apply list_elem_of_singleton in Hn as ->. vm_compute. eauto.
  - exists cites, dbs. split; [done|]. split.
    + rewrite Hc. by vm_compute.
    + revert Hp. vm_compute. congruence.
Defined.

(** C7, the claim as it was written fails: where a key is one of the
    names separated by commas between the braces, the registry of the
    lines [\citation{x,y}], [\citation{x}] and [\citation{y}] cites the
    keys [x] and [y], each more than once; the list that [parse_aux]
    returns in insertion mode has three entries, the first of which is
    no key but the text [x,y], so that [x] and [y] are not at the place
    of their first occurrence. *)
Lemma parse_aux_insertion_order_comma :
  sorted (self Examples.w_comma) = false ∧
  comma_free_keys Examples.comma_lines = ["x"; "y"; "x"; "y"] ∧
  first_occurrences (comma_free_keys Examples.comma_lines) = ["x"; "y"] ∧
  parse_aux Examples.w_comma = Ok (["x,y"; "x"; "y"], []) ∧
  ("x,y" ∉ comma_free_keys Examples.comma_lines) ∧
  (["x,y"; "x"; "y"] ≠ first_occurrences (comma_free_keys Examples.comma_lines)).
Proof.
  split_and!; try by vm_compute.
  intros Hin. vm_compute in Hin.
  repeat (apply elem_of_cons in Hin as [Hin|Hin]; [discriminate Hin|]).
  by apply elem_of_nil in Hin.
Qed.

(** ** Databases that are not found *)

Lemma add_db_loop_unresolved name w dirs :
  (∀ dir, dir ∈ dirs → exists_file (fs w) (join dir (name +:+ ".bib")) = false) →
  add_db_loop name dirs w = (Ok tt, w).
Proof.
  induction dirs as [|dir dirs IH]; intros Hno; simpl; [done|].
  unfold bind, gets. rewrite (Hno dir) by left.
  apply IH. intros d Hd. apply Hno. by right.
Qed.

(** C10: a database that no directory of the search path holds leaves
    everything as it was: [add_db] returns without an exception, the
    table of resolved paths, the dependencies of the host and its list of
    files not included are unchanged; so a name that was not in the
    table is not in it afterwards, and [first_run_needed] decides as
    before, whatever becomes of the files later. *)
Theorem add_db_unresolved name w :
  (∀ dir, dir ∈ bib_path (self w) →
          exists_file (fs w) (join dir (name +:+ ".bib")) = false) →
  add_db name w = (Ok tt, w) ∧
  (db (self w) !! name = None → db (self (add_db name w).2) !! name = None) ∧
  sources (doc (add_db name w).2) = sources (doc w) ∧
  (∀ f, first_run_needed (with_fs f (add_db name w).2)
        = first_run_needed (with_fs f w)).
Proof.
  intros Hno.
  assert (add_db name w = (Ok tt, w)) as Heq.
  { unfold add_db, bind, gets. by apply add_db_loop_unresolved. }
  by rewrite Heq.
Qed.

Lemma add_db_unresolved_witness :
  add_db "refs" Examples.w_first = (Ok tt, Examples.w_first) ∧
  (db (self Examples.w_first) !! "refs" = None →
   db (self (add_db "refs" Examples.w_first).2) !! "refs" = None) ∧
  sources (doc (add_db "refs" Examples.w_first).2) = sources (doc Examples.w_first) ∧
  (∀ f, first_run_needed (with_fs f (add_db "refs" Examples.w_first).2)
        = first_run_needed (with_fs f Examples.w_first)).
Proof.
  apply (add_db_unresolved "refs" Examples.w_first).
  intros dir Hdir. apply list_elem_of_singleton in Hdir as ->. reflexivity.
Defined.

(** ** Is a first run needed *)

Lemma db_modified_older f dtime dbs :
  (∀ path, path ∈ dbs → ∃ x, f path = Some x ∧ (f_mtime x ≤ dtime)%Z) →
  db_modified f dtime dbs = Ok false.
Proof.
  induction dbs as [|d dbs IH]; intros Hold; simpl; [done|].
  destruct (Hold d) as (x & Hx & Hle); [left|].
  unfold getmtime. rewrite Hx. simpl.
  destruct (Z.gtb_spec (f_mtime x) dtime); [lia|].
  apply IH. intros path Hp. apply Hold. by right.
Qed.

(** With a tool log that has no error marker and reports the style in
    use, files that are not newer than the log ask for no run. *)
Lemma first_run_not_needed w blg :
  fs w (base (self w) +:+ ".blg") = Some blg →
  has_error_marker (Str.readlines (f_data blg)) = false →
  style_changed w = false →
  (∀ name path, db (self w) !! name = Some path →
     ∃ x, fs w path = Some x ∧ (f_mtime x ≤ f_mtime blg)%Z) →
  (∀ path, bst_file (self w) = Some path →
     ∃ x, fs w path = Some x ∧ (f_mtime x ≤ f_mtime blg)%Z) →
  first_run_needed w = Ok false.
Proof.
  intros Hblg Hmark Hstyle Hdb Hbst. unfold first_run_needed.
  destruct (negb _); [done|].
  unfold exists_file, getmtime, open_lines. rewrite Hblg. simpl.
  rewrite (db_modified_older _ _ (map_to_list (db (self w))).*2); simpl.
  - rewrite Hmark, Hstyle.
    destruct (bst_file (self w)) as [[|a bst]|] eqn:Hb; [done| |done].
    destruct (Hbst _ eq_refl) as (x & -> & Hle). simpl.
    by destruct (Z.gtb_spec (f_mtime x) (f_mtime blg)); [lia|].
  - intros path ([name p] & -> & Hin%elem_of_map_to_list)%list_elem_of_fmap.
    by eapply Hdb.
Qed.

(** C6, as the code has it: with a registry and no tool log
    [first_run_needed] returns true, and without a registry it returns
    false whatever else is on disk; with a tool log that has no error
    marker and reports the style in use, and with every registered
    database file and the resolved style file strictly older than the
    log, it returns false. *)
Theorem first_run_needed_spec w :
  (exists_file (fs w) (base (self w) +:+ ".aux") = true →
   exists_file (fs w) (base (self w) +:+ ".blg") = false →
   first_run_needed w = Ok true) ∧
  (∀ blg,
     fs w (base (self w) +:+ ".blg") = Some blg →
     has_error_marker (Str.readlines (f_data blg)) = false →
     style_changed w = false →
     (∀ name path, db (self w) !! name = Some path →
        ∃ x, fs w path = Some x ∧ (f_mtime x < f_mtime blg)%Z) →
     (∀ path, bst_file (self w) = Some path →
        ∃ x, fs w path = Some x ∧ (f_mtime x < f_mtime blg)%Z) →
     first_run_needed w = Ok false) ∧
  (exists_file (fs w) (base (self w) +:+ ".aux") = false →
   first_run_needed w = Ok false).
Proof.
  split_and!.
  - intros Haux Hblg. unfold first_run_needed. by rewrite Haux, Hblg.
  - intros blg Hblg Hmark Hstyle Hdb Hbst.
    apply (first_run_not_needed w blg); try done.
    + intros name path Hp. destruct (Hdb _ _ Hp) as (x & ? & ?).
      exists x. split; [done | lia].
    + intros path Hp. destruct (Hbst _ Hp) as (x & ? & ?).
      exists x. split; [done | lia].
  - intros Haux. unfold first_run_needed. by rewrite Haux.
Qed.

Lemma first_run_needed_spec_witness :
  first_run_needed Examples.w_first = Ok true ∧
  first_run_needed Examples.w_clean = Ok false ∧
  first_run_needed Examples.w_norun = Ok false.
Proof.
  split_and!.
  - apply (proj1 (first_run_needed_spec Examples.w_first)); reflexivity.
  - apply (proj1 (proj2 (first_run_needed_spec Examples.w_clean))
             (mkFile 20 ("This is BibTeX" +:+ Examples.nl +:+
                         "The style file: plain.bst" +:+ Examples.nl))).
    + reflexivity.
    + reflexivity.
    + reflexivity.
    + assert (db (self Examples.w_clean) = {["refs" := "/doc/refs.bib"]}) as ->
        by reflexivity.
      intros name path [<- <-]%lookup_singleton_Some.
      exists (mkFile 5 ""). split; [reflexivity | simpl; lia].
    + assert (bst_file (self Examples.w_clean) = Some "/doc/plain.bst") as ->
        by reflexivity.
      intros path [= <-]. exists (mkFile 3 ""). split; [reflexivity | simpl; lia].
  - apply (proj2 (proj2 (first_run_needed_spec Examples.w_norun))). reflexivity.
Defined.

(** C6, the claim as it was written fails on both sides: without a
    registry, a missing tool log asks for no run; and a tool log that is
    newer than every file and has no error marker asks for a run when it
    reports another style than the one in use. *)
Lemma first_run_needed_counterexample :
  (exists_file (fs Examples.w_norun) (base (self Examples.w_norun) +:+ ".blg") = false ∧
   first_run_needed Examples.w_norun = Ok false) ∧
  (exists_file (fs Examples.w_style) (base (self Examples.w_style) +:+ ".blg") = true ∧
   (∀ blg, fs Examples.w_style (base (self Examples.w_style) +:+ ".blg") = Some blg →
      has_error_marker (Str.readlines (f_data blg)) = false ∧
      (∀ name path, db (self Examples.w_style) !! name = Some path →
         ∃ x, fs Examples.w_style path = Some x ∧ (f_mtime x < f_mtime blg)%Z) ∧
      (∀ path, bst_file (self Examples.w_style) = Some path →
         ∃ x, fs Examples.w_style path = Some x ∧ (f_mtime x < f_mtime blg)%Z)) ∧
   first_run_needed Examples.w_style = Ok true).
Proof.
  split; [by vm_compute|]. split; [by vm_compute|]. split; [|by vm_compute].
  intros blg Hblg. vm_compute in Hblg. injection Hblg as <-.
  split; [by vm_compute|]. split.
  - assert (db (self Examples.w_style) = {["refs" := "/doc/refs.bib"]}) as ->
      by reflexivity.
    intros name path [<- <-]%lookup_singleton_Some.
    exists (mkFile 5 ""). split; [reflexivity | simpl; lia].
  - assert (bst_file (self Examples.w_style) = Some "/doc/plain.bst") as ->
      by reflexivity.
    intros path [= <-]. exists (mkFile 3 ""). split; [reflexivity | simpl; lia].
Qed.

(** ** Running the tool *)

(** C9: when the tool fails, [run] returns 1 and the attributes of the
    module and of the host document are as before, so a pending run
    stays pending and no compilation is asked for; when it succeeds,
    [run] returns 0, clears [run_needed] and sets [must_compile]. *)
Theorem run_result execute getenv w status f :
  execute (bibtex_cmd (self w)) (bibtex_env getenv (self w)) (fs w) = (status, f) →
  (status ≠ 0%Z →
   ∃ w', run execute getenv w = (Ok 1%Z, w') ∧
         self w' = self w ∧ doc w' = doc w) ∧
  (status = 0%Z →
   ∃ w', run execute getenv w = (Ok 0%Z, w') ∧
         run_needed (self w') = false ∧ must_compile (doc w') = true).
Proof.
  intros Hexec. unfold run, bind, gets, env_execute. rewrite Hexec.
  split; intros Hst.
  - rewrite bool_decide_true by done. by eexists.
  - rewrite bool_decide_false by (by intros ?). by eexists.
Qed.

Lemma run_result_witness :
  (∃ w', run Examples.failing_tool Examples.no_env Examples.w_first = (Ok 1%Z, w') ∧
         self w' = self Examples.w_first ∧ doc w' = doc Examples.w_first) ∧
  (∃ w', run Examples.working_tool Examples.no_env Examples.w_first = (Ok 0%Z, w') ∧
         run_needed (self w') = false ∧ must_compile (doc w') = true).
Proof.
  split.
  - apply (proj1 (run_result Examples.failing_tool Examples.no_env
                    Examples.w_first 2 (fs Examples.w_first) eq_refl)).
    lia.
  - apply (proj2 (run_result Examples.working_tool Examples.no_env
                    Examples.w_first 0 _ eq_refl)).
    reflexivity.
Defined.

(** ** Before the compilation *)

Lemma first_run_needed_ext w1 w2 :
  fs w1 = fs w2 →
  base (self w1) = base (self w2) →
  db (self w1) = db (self w2) →
  style (self w1) = style (self w2) →
  bst_file (self w1) = bst_file (self w2) →
  first_run_needed w1 = first_run_needed w2.
Proof.
  unfold first_run_needed, style_changed. cbv zeta.
  by intros -> -> -> -> ->.
Qed.

(** C3, as the code has it: when no run of the tool is needed and the
    host has not asked for a compilation, [pre_compile] with a compiled
    bibliography and a main log on disk sets [must_compile] exactly when
    the compiled bibliography is strictly newer than the main log; it
    returns 0 and does not run the tool. *)
Theorem pre_compile_newer_output execute getenv w bbl log :
  must_compile (doc w) = false →
  (exists_file (fs w) (src_base (doc w) +:+ ".aux") = true →
   ∀ n, n ∈ aux_md5 (doc w) → is_Some (fs w n)) →
  first_run_needed w = Ok false →
  fs w (base (self w) +:+ ".bbl") = Some bbl →
  fs w (src_base (doc w) +:+ ".log") = Some log →
  ∃ w', pre_compile execute getenv w = (Ok 0%Z, w') ∧
        must_compile (doc w') = bool_decide (f_mtime bbl > f_mtime log)%Z ∧
        executed w' = executed w ∧ fs w' = fs w.
Proof.
  intros Hmc Haux Hfirst Hbbl Hlog.
  unfold pre_compile, bind, gets, reads, on_self, on_doc, ret. simpl.
  assert (∃ cites dbs,
    exists_file (fs w) (src_base (doc w) +:+ ".aux") = true →
    parse_aux w = Ok (cites, dbs)) as (cites & dbs & Hparse).
  { destruct (exists_file (fs w) (src_base (doc w) +:+ ".aux")).
    - destruct (parse_aux_ok w (Haux eq_refl)) as (c & d & Hp).
      by exists c, d.
    - by exists [], []. }
  destruct (exists_file (fs w) (src_base (doc w) +:+ ".aux"));
    [rewrite Hparse by done|];
    destruct (bool_decide (log_lines (doc w) ≠ [])); simpl.
  all: erewrite (first_run_needed_ext _ w), Hfirst by done; simpl.
  all: rewrite Hmc; unfold exists_file, getmtime; simpl.
  all: rewrite Hbbl; simpl; rewrite Hbbl, Hlog; simpl.
  all: destruct (Z.gtb_spec (f_mtime bbl) (f_mtime log));
    eexists; (split; [done|]); simpl.
  all: (rewrite bool_decide_true by lia) || (rewrite bool_decide_false by lia).
  all: by rewrite ?Hmc.
Qed.

Lemma pre_compile_newer_output_witness :
  ∃ w', pre_compile Examples.failing_tool Examples.no_env (Examples.w_bbl 25)
        = (Ok 0%Z, w') ∧
        must_compile (doc w') = true ∧
        executed w' = [] ∧ fs w' = fs (Examples.w_bbl 25).
Proof.
  destruct (pre_compile_newer_output Examples.failing_tool Examples.no_env
              (Examples.w_bbl 25) (mkFile 25 "") (mkFile 15 ""))
    as (w' & Hrun & Hmc & Hex & Hfs).
  - reflexivity.
  - intros _ n Hn. apply list_elem_of_singleton in Hn as ->. vm_compute. eauto.
  - reflexivity.
  - reflexivity.
  - reflexivity.
  - exists w'. by split_and!.
Defined.

(** C3, the claim as it was written fails: with a compiled bibliography
    older than the main log, [pre_compile] asks for no compilation. *)
Lemma pre_compile_older_output :
  first_run_needed (Examples.w_bbl 12) = Ok false ∧
  must_compile (doc (Examples.w_bbl 12)) = false ∧
  (f_mtime <$> fs (Examples.w_bbl 12) "main.bbl") = Some 12%Z ∧
  (f_mtime <$> fs (Examples.w_bbl 12) "main.log") = Some 15%Z ∧
  ∃ w', pre_compile Examples.failing_tool Examples.no_env (Examples.w_bbl 12)
        = (Ok 0%Z, w') ∧
        must_compile (doc w') = false.
Proof.
  split_and!; try by vm_compute.
  eexists. split; by vm_compute.
Qed.


(** ** After the compilation *)

Lemma has_new_undef_false old new :
  has_new_undef old new = false ↔ ∀ cite, cite ∈ new → cite ∈ old.
Proof.
  induction new as [|c new IH]; simpl.
  - split; [|done]. intros _ cite Hc. by apply elem_of_nil in Hc.
  - case_bool_decide as Hin.
    + rewrite IH. split.
      * intros Hall cite [->|?]%elem_of_cons; auto.
      * intros Hall cite Hc. apply Hall. by right.
    + split; [done|]. intros Hall. destruct Hin. apply Hall. left.
Qed.

Lemma has_new_undef_refl l : has_new_undef l l = false.
Proof. by apply has_new_undef_false. Qed.

(** [parse_aux] and [list_undefs] read the files, the host document and
    the sort mode only. *)
Lemma parse_aux_ext w1 w2 :
  fs w1 = fs w2 → doc w1 = doc w2 → sorted (self w1) = sorted (self w2) →
  parse_aux w1 = parse_aux w2.
Proof. unfold parse_aux. by intros -> -> ->. Qed.








Lemma bibtex_needed_blg_state w r w' :
  bibtex_needed_blg w = (Ok r, w') → w' = w.
Proof.
  unfold bibtex_needed_blg, bind, gets, reads, ret. simpl.
  repeat case_match; congruence.
Qed.

Lemma bibtex_needed_undefs_state w r w' :
  bibtex_needed_undefs w = (Ok r, w') →
  w' = with_self (set_undef_cites (Some (list_undefs w)) (self w)) w.
Proof.
  unfold bibtex_needed_undefs, bind, gets, on_self, ret. simpl.
  repeat case_match; try congruence.
  all: by intros ->%bibtex_needed_blg_state.
Qed.

Lemma bibtex_needed_state w r w' :
  run_needed (self w) = false →
  bibtex_needed w = (Ok r, w') →
  ∃ new dbs, parse_aux w = Ok (new, dbs) ∧ w' = observed new dbs w.
Proof.
  intros Hrun.
  unfold bibtex_needed, bind, gets, reads, read_prev_dbs, on_self, ret. simpl.
  rewrite Hrun.
  destruct (parse_aux w) as [[new dbs]|] eqn:Hparse; [|done].
  destruct (prev_dbs (self w)) as [prev|]; [|done]. simpl.
  intros Hcall. exists new, dbs. split; [done|]. revert Hcall.
  repeat case_match; try congruence.
  - intros [= _ <-]. reflexivity.
  - intros [= _ <-]. reflexivity.
  - by intros ->%bibtex_needed_undefs_state.
Qed.

Arguments list_undefs : simpl never.

(** The middle and the end of [bibtex_needed] when the list kept from
    before is the list of the main log. *)
Lemma bibtex_needed_undefs_same w undefs :
  undef_cites (self w) = Some undefs →
  list_undefs w = undefs →
  bibtex_needed_undefs w
  = (Ok (bool_decide (undefs = [])
         && negb (exists_file (fs w) (base (self w) +:+ ".blg"))),
     with_self (set_undef_cites (Some undefs) (self w)) w).
Proof.
  intros Hu <-.
  unfold bibtex_needed_undefs, bibtex_needed_blg, bind, gets, on_self, ret.
  simpl. rewrite Hu.
  destruct (list_undefs w) as [|u undefs] eqn:Hl;
    cbn -[has_new_undef]; rewrite ?Hl; cbn -[has_new_undef].
  - by destruct (exists_file (fs w) (base (self w) +:+ ".blg")).
  - by rewrite (has_new_undef_refl (u :: undefs)).
Qed.

(** While a run is pending [bibtex_needed] answers at its first test:
    it reads no file and changes nothing. *)
Lemma bibtex_needed_pending w :
  run_needed (self w) = true → bibtex_needed w = (Ok true, w).
Proof.
  intros Hrun. unfold bibtex_needed, bind, gets, on_self, ret. simpl.
  by rewrite Hrun.
Qed.

(** C5, as the code has it: when no run is pending and a first
    evaluation of [bibtex_needed] has returned, a second one on the same
    files returns too and leaves the state as it is; it decides for no
    rerun exactly when the tool log exists or the main log has undefined
    citations.  Without a tool log and without undefined citations it
    decides for a rerun again.  While a run is pending every evaluation
    decides for a rerun and leaves the state as it is, so the second one
    decides for a rerun as well. *)
Theorem bibtex_needed_twice w :
  (run_needed (self w) = false →
   ∀ r1 w1,
     bibtex_needed w = (Ok r1, w1) →
     ∃ r2,
       bibtex_needed w1 = (Ok r2, w1) ∧
       (r2 = false ↔
          exists_file (fs w) (base (self w) +:+ ".blg") = true ∨ list_undefs w ≠ [])) ∧
  (run_needed (self w) = true →
   bibtex_needed w = (Ok true, w)).
Proof.
  split; [|by apply bibtex_needed_pending].
  intros Hrun r1 w1 Hcall.
  destruct (bibtex_needed_state _ _ _ Hrun Hcall) as (new & dbs & Hparse & ->).
  unfold bibtex_needed, bind, gets, reads, read_prev_dbs, on_self, ret. simpl.
  rewrite Hrun, (parse_aux_ext _ w), Hparse by done. simpl.
  rewrite (bool_decide_false (Some dbs ≠ Some dbs)) by (by intros []).
  rewrite (bool_decide_false (Some new ≠ Some new)) by (by intros []).
  rewrite !andb_false_r.
  rewrite (bibtex_needed_undefs_same _ (list_undefs w)) by done. simpl.
  eexists. split; [done|].
  destruct (exists_file (fs w) (base (self w) +:+ ".blg")); simpl;
    case_bool_decide; naive_solver.
Qed.

Lemma bibtex_needed_twice_witness :
  (∃ r2,
     bibtex_needed (observed ["x"] ["refs"] Examples.w_post)
     = (Ok r2, observed ["x"] ["refs"] Examples.w_post) ∧
     (r2 = false ↔
        exists_file (fs Examples.w_post) (base (self Examples.w_post) +:+ ".blg") = true
        ∨ list_undefs Examples.w_post ≠ [])) ∧
  bibtex_needed Examples.w_pending = (Ok true, Examples.w_pending).
Proof.
  split.
  - apply (proj1 (bibtex_needed_twice Examples.w_post) eq_refl false).
    by vm_compute.
  - apply (proj2 (bibtex_needed_twice Examples.w_pending)). reflexivity.
Defined.

(** C5, the claim as it was written fails: without a tool log and
    without undefined citations the second evaluation decides for a
    rerun as the first did; and so does it while a run is pending. *)
Lemma bibtex_needed_twice_rerun :
  (run_needed (self Examples.w_quiet) = false ∧
   ∃ w1, bibtex_needed Examples.w_quiet = (Ok true, w1) ∧
         fs w1 = fs Examples.w_quiet ∧ doc w1 = doc Examples.w_quiet ∧
         bibtex_needed w1 = (Ok true, w1)) ∧
  (run_needed (self Examples.w_pending) = true ∧
   bibtex_needed Examples.w_pending = (Ok true, Examples.w_pending)).
Proof.
  split; split.
  - by vm_compute.
  - exists (observed ["x"] ["refs"] Examples.w_quiet).
    split_and!; by vm_compute.
  - by vm_compute.
  - by vm_compute.
Qed.

(** ** The style file as a dependency *)

Lemma set_style_loop_keeps name dirs : ∀ w key,
  is_Some (sources (doc w) !! key) →
  is_Some (sources (doc (set_style_loop name dirs w).2) !! key).
Proof.
  induction dirs as [|dir dirs IH]; intros w key Hkey; simpl; [done|].
  unfold bind, gets, on_self, on_doc. simpl.
  destruct (exists_file (fs w) (join dir (name +:+ ".bst"))); simpl.
  - destruct (decide (join dir (name +:+ ".bst") = key)) as [->|Hne].
    + by rewrite lookup_insert_eq.
    + by rewrite lookup_insert_ne.
  - by apply IH.
Qed.

(** [set_style] removes no other entry than the one named by the old
    style and the suffix, without a directory. *)
Lemma set_style_keeps name w key :
  is_Some (sources (doc w) !! key) →
  (∀ old, style (self w) = Some old → key ≠ old +:+ ".bst") →
  is_Some (sources (doc (set_style name w).2) !! key).
Proof.
  intros Hkey Hold. unfold set_style, bind, gets, on_self, on_doc, ret. simpl.
  destruct (style (self w)) as [[|a old]|] eqn:Hstyle; simpl.
  1,3: by apply set_style_loop_keeps.
  destruct (exists_file _ _ && _); simpl; apply set_style_loop_keeps; simpl;
    [|done].
  rewrite lookup_delete_ne; [done|]. intros Heq. by apply (Hold _ eq_refl).
Qed.

(** C2, what the code does: after the style [plain] of the directory of
    the document was replaced by [alpha], and after the style [fancy] of
    a style directory was replaced by [alpha], the file of the old style
    is still among the dependencies of the host, with the file of the
    new one. *)
Theorem set_style_two_dependencies :
  (style (self Examples.w_local) = Some "alpha" ∧
   bst_file (self Examples.w_local) = Some "/doc/alpha.bst" ∧
   sources (doc Examples.w_local) !! "/doc/alpha.bst" = Some (mkLeaf "/doc/alpha.bst") ∧
   sources (doc Examples.w_local) !! "/doc/plain.bst" = Some (mkLeaf "/doc/plain.bst")) ∧
  (style (self Examples.w_styles) = Some "alpha" ∧
   bst_file (self Examples.w_styles) = Some "/styles/alpha.bst" ∧
   sources (doc Examples.w_styles) !! "/styles/alpha.bst" = Some (mkLeaf "/styles/alpha.bst") ∧
   sources (doc Examples.w_styles) !! "/styles/fancy.bst" = Some (mkLeaf "/styles/fancy.bst")).
Proof. split; split_and!; by vm_compute. Qed.

(** ** Diagnostics of the tool log *)

Lemma error_record_refs table :
  error_record table (ErrorMatch 0 (Some "7") "refs.bib") "Warning--foo"
  = {[ "pkg" := PStr "bibtex"; "kind" := PStr "error";
       "text" := PStr "Warning--foo"; "line" := PStr "7";
       "file" := PStr (resolved_refs table) ]}.
Proof.
  unfold error_record, resolved_refs. cbn [m_file].
  change (bool_decide (Str.take_last 4 "refs.bib" = ".bib")) with true.
  cbv iota.
  change (Str.drop_last 4 "refs.bib") with "refs".
  change ("refs" +:+ ".bib") with "refs.bib".
  destruct (table !! "refs") as [path|];
    [|destruct (table !! "refs.bib") as [path|]]; vm_compute; reflexivity.
Qed.

(** C8, as the code has it: for a tool log of the two lines
    [Warning--foo] and [---line 7 of file refs.bib], the last one with
    or without its newline, [get_errors] yields one record and is
    exhausted; the record has the text [Warning--foo], the line [7] as
    the log writes it, and for file the path of the database [refs] if
    it is registered, else the path of a database registered as
    [refs.bib] if there is one, else [refs.bib]. *)
Theorem get_errors_two_lines w log tail :
  fs w (base (self w) +:+ ".blg") = Some log →
  f_data log = two_lines tail →
  tail = "" ∨ tail = Examples.nl →
  get_errors w
  = ([ {[ "pkg" := PStr "bibtex"; "kind" := PStr "error";
          "text" := PStr "Warning--foo"; "line" := PStr "7";
          "file" := PStr (resolved_refs (db (self w))) ]} ],
     Exhausted).
Proof.
  intros Hlog Hdata Htail. unfold get_errors. rewrite Hlog, Hdata.
  rewrite <- error_record_refs.
  destruct Htail as [-> | ->].
  - change (Str.readlines (two_lines ""))
      with ["Warning--foo" +:+ Examples.nl; "---line 7 of file refs.bib"].
    cbn [get_errors_loop].
    change (re_error ("Warning--foo" +:+ Examples.nl)) with (@None error_match).
    change (re_error "---line 7 of file refs.bib")
      with (Some (ErrorMatch 0 (Some "7") "refs.bib")).
    reflexivity.
  - change (Str.readlines (two_lines Examples.nl))
      with ["Warning--foo" +:+ Examples.nl;
            "---line 7 of file refs.bib" +:+ Examples.nl].
    cbn [get_errors_loop].
    change (re_error ("Warning--foo" +:+ Examples.nl)) with (@None error_match).
    change (re_error ("---line 7 of file refs.bib" +:+ Examples.nl))
      with (Some (ErrorMatch 0 (Some "7") "refs.bib")).
    reflexivity.
Qed.

Lemma get_errors_two_lines_witness :
  get_errors Examples.w_bibbib
  = ([ {[ "pkg" := PStr "bibtex"; "kind" := PStr "error";
          "text" := PStr "Warning--foo"; "line" := PStr "7";
          "file" := PStr (resolved_refs (db (self Examples.w_bibbib))) ]} ],
     Exhausted).
Proof.
  apply (get_errors_two_lines Examples.w_bibbib
           (mkFile 20 (two_lines Examples.nl)) Examples.nl).
  - reflexivity.
  - reflexivity.
  - by right.
Defined.

(** C8, the claim as it was written fails: the database [refs] is not
    registered, and the file of the record is not [refs.bib] but the
    path of the database that was declared as [refs.bib]. *)
Lemma get_errors_database_with_suffix :
  db (self Examples.w_bibbib) !! "refs" = None ∧
  (get_errors Examples.w_bibbib).2 = Exhausted ∧
  (λ d, (d !! "text", d !! "line", d !! "file")) <$> (get_errors Examples.w_bibbib).1
  = [(Some (PStr "Warning--foo"), Some (PStr "7"), Some (PStr "/doc/refs.bib.bib"))].
Proof. split_and!; by vm_compute. Qed.

(** ** Checks of the embedding on lines of real logs *)

Example re_undef_foo :
  re_undef "LaTeX Warning: Citation `foo' on page 3 undefined on input line 12."
  = Some "foo".
Proof. reflexivity. Qed.

Example re_undef_other : re_undef "LaTeX Warning: Reference `foo' undefined." = None.
Proof. reflexivity. Qed.

Example re_error_line :
  re_error "---line 7 of file refs.bib" = Some (ErrorMatch 0 (Some "7") "refs.bib").
Proof. reflexivity. Qed.

Example re_error_reading :
  re_error "I found no database files---while reading file main.aux"
  = Some (ErrorMatch 25 None "main.aux").
Proof. reflexivity. Qed.

(** A citation line gives one key, the text between its braces, also
    when that text is a list of keys with commas. *)
Example re_citation_comma :
  re_citation ("\citation{a,b}" +:+ Examples.nl) = Some "a,b".
Proof. reflexivity. Qed.

Example join_paths :
  join "/doc" "plain.bst" = "/doc/plain.bst" ∧ join "" "plain.bst" = "plain.bst" ∧
  join "/doc/" "plain.bst" = "/doc/plain.bst" ∧ join "/doc" "/tex/plain.bst" = "/tex/plain.bst".
Proof. by split_and!. Qed.

(** After a marker the variable [line] holds the line number, and so
    does [last_line] at the next line: a second marker at the start of
    that line makes the generator raise after its first record. *)
Example get_errors_consecutive_markers :
  let r := get_errors_loop ∅ (PStr "")
             ["---line 1 of file a.bib" +:+ Examples.nl;
              "---line 2 of file a.bib" +:+ Examples.nl] in
  length r.1 = 1 ∧ r.2 = Raised (AttributeError "strip").
Proof. by vm_compute. Qed.

(** * Further properties *)

(** ** The lines of the registry *)

Lemma split_no_sep sep s : occurs sep s = false → Str.split sep s = [s].
Proof.
  induction s as [|a s IH]; intros Hs; [done|].
  simpl in *. apply orb_false_iff in Hs as [Ha Hs].
  by rewrite Ha, IH.
Qed.

Lemma split_app_sep sep s r :
  occurs sep s = false →
  Str.split sep (s +:+ String sep r) = s :: Str.split sep r.
Proof.
  induction s as [|a s IH]; intros Hs.
  - rewrite app_empty. simpl. unfold Str.eqb_ascii. by rewrite bool_decide_true.
  - rewrite app_cons. simpl in *. apply orb_false_iff in Hs as [Ha Hs].
    by rewrite Ha, IH.
Qed.

(** Joining names that have no comma and splitting the result gives the
    names back; the empty list is the one exception, its join is the
    empty string, which splits into one empty name. *)
Lemma split_join names :
  names ≠ [] →
  Forall (λ n, occurs ","%char n = false) names →
  Str.split ","%char (Str.join "," names) = names.
Proof.
  intros Hne Hall. induction Hall as [|n names Hn Hall IH]; [done|].
  destruct names as [|n' names]; simpl.
  - by apply split_no_sep.
  - change ("," +:+ ?s) with (String ","%char s).
    rewrite split_app_sep by done. f_equal. by apply IH.
Qed.

Lemma join_cons sep x y l :
  Str.join sep (x :: y :: l) = x +:+ sep +:+ Str.join sep (y :: l).
Proof. reflexivity. Qed.

Lemma occurs_join c names :
  Str.eqb_ascii ","%char c = false →
  Forall (λ n, occurs c n = false) names →
  occurs c (Str.join "," names) = false.
Proof.
  intros Hc Hall. induction Hall as [|n names Hn Hall IH]; [done|].
  destruct names as [|n' names]; [done|].
  rewrite join_cons.
  change ("," +:+ ?s) with (String ","%char s).
  rewrite occurs_app, Hn. cbn [occurs orb]. by rewrite Hc, IH.
Qed.

(** A database line gives its names back, when no name has a comma or
    a newline and there is one name at least. *)
Lemma re_bibdata_line names :
  names ≠ [] →
  Forall (λ n, occurs ","%char n = false ∧ occurs Str.newline n = false) names →
  Str.split ","%char <$> re_bibdata (bibdata_line names) = Some names.
Proof.
  intros Hne Hall. unfold re_bibdata, bibdata_line.
  rewrite strip_prefix_append. simpl.
  change ("}" +:+ eol) with (String "}" "" +:+ String Str.newline "").
  rewrite <- app_assoc_str, dot_star_line.
  - rewrite upto_last_closing. simpl. f_equal. apply split_join; [done|].
    eapply Forall_impl; [done|]. by intros n [? ?].
  - rewrite occurs_app, occurs_join; [done..|].
    eapply Forall_impl; [done|]. by intros n [? ?].
Qed.

(** An empty list of names is not read back: the line without a name
    gives one empty name. *)
Lemma re_bibdata_line_empty :
  Str.split ","%char <$> re_bibdata (bibdata_line []) = Some [""].
Proof. reflexivity. Qed.

(** ** Reading a file by lines *)

Lemma rev_app_app s : ∀ t, String.rev_app s t = String.rev_app s "" +:+ t.
Proof.
  induction s as [|a s IH]; intros t; simpl; [done|].
  rewrite (IH (String a t)), (IH (String a "")).
  by rewrite app_assoc_str.
Qed.

Lemma rev_cons a s : String.rev (String a s) = String.rev s +:+ String a "".
Proof. unfold String.rev. simpl. apply rev_app_app. Qed.

Lemma readlines_go_line s : ∀ cur t,
  occurs Str.newline s = false →
  Str.readlines_go cur (s +:+ String Str.newline t)
  = (String.rev cur +:+ s +:+ eol) :: Str.readlines_go "" t.
Proof.
  induction s as [|a s IH]; intros cur t Hs.
  - rewrite !app_empty. simpl. by rewrite rev_cons.
  - rewrite app_cons. simpl in *. apply orb_false_iff in Hs as [Ha Hs].
    rewrite Ha, IH by done. by rewrite rev_cons, app_assoc_str.
Qed.

(** A file made of lines that end with a newline and have no other is
    read as these lines. *)
Lemma readlines_lines bodies :
  Forall (λ b, occurs Str.newline b = false) bodies →
  Str.readlines (foldr (λ b s, (b +:+ eol) +:+ s) "" bodies)
  = (λ b, b +:+ eol) <$> bodies.
Proof.
  unfold Str.readlines.
  induction 1 as [|b bodies Hb Hall IH]; [done|].
  simpl. unfold eol at 1. rewrite app_assoc_str.
  change (String Str.newline "" +:+ ?s) with (String Str.newline s).
  rewrite readlines_go_line by done. by rewrite IH.
Qed.

(** ** The registry parser again *)

(** What [parse_aux] returns for registry files that can be opened. *)
Lemma parse_aux_result w :
  (∀ n, n ∈ aux_md5 (doc w) → is_Some (fs w n)) →
  let lines := aux_lines (fs w) (aux_md5 (doc w)) in
  parse_aux w
  = Ok (if sorted (self w)
        then merge_sort String.le (first_occurrences (citation_keys lines))
        else first_occurrences (citation_keys lines),
        merge_sort String.le (bibdata_names lines)).
Proof.
  intros Hall lines. unfold parse_aux.
  rewrite (parse_files_fold _ _ _ Hall). fold lines.
  pose proof (parse_line_cites lines [] [] (NoDup_nil_2 : NoDup [])) as Hc.
  pose proof (parse_line_dbs lines 0 ∅ []) as Hd.
  simpl in Hc, Hd. rewrite add_key_fold_nil in Hc.
  change (list_to_map []) with (∅ : gmap string Z) in Hc.
  destruct (foldl parse_line _ _) as [[last cites] dbs].
  simpl in Hd. subst dbs. injection Hc as _ ->.
  destruct (sorted (self w)); f_equal; f_equal.
  - apply (StronglySorted_unique String.le);
      [apply (StronglySorted_merge_sort String.le)..|].
    rewrite !merge_sort_Permutation, map_to_list_to_map
      by (rewrite number_swap_fst; apply first_occurrences_NoDup).
    by rewrite number_swap_fst.
  - change (λ cn : string * Z, (cn.2, cn.1)) with (@swap string Z).
    rewrite sort_numbered by apply first_occurrences_NoDup.
    apply number_snd.
Qed.

(** X1: in sorted mode the list of keys that [parse_aux] returns is
    sorted for the order of strings, has no duplicate, and has the keys
    of the citation lines and no other. *)
Theorem parse_aux_sorted_mode w :
  sorted (self w) = true →
  (∀ n, n ∈ aux_md5 (doc w) → is_Some (fs w n)) →
  ∃ cites dbs,
    parse_aux w = Ok (cites, dbs) ∧
    StronglySorted String.le cites ∧
    NoDup cites ∧
    ∀ k, k ∈ cites ↔ k ∈ citation_keys (aux_lines (fs w) (aux_md5 (doc w))).
Proof.
  intros Hmode Hall. rewrite (parse_aux_result w Hall), Hmode.
  eexists _, _. split; [done|]. split_and!.
  - apply (StronglySorted_merge_sort String.le).
  - rewrite merge_sort_Permutation. apply first_occurrences_NoDup.
  - intros k. rewrite merge_sort_Permutation. apply first_occurrences_elem_of.
Qed.

Lemma parse_aux_sorted_mode_witness :
  ∃ cites dbs,
    parse_aux Examples.w_dup = Ok (cites, dbs) ∧
    StronglySorted String.le cites ∧
    NoDup cites ∧
    ∀ k, k ∈ cites
         ↔ k ∈ citation_keys (aux_lines (fs Examples.w_dup) (aux_md5 (doc Examples.w_dup))).
Proof.
  apply (parse_aux_sorted_mode Examples.w_dup).
  - reflexivity.
  - intros n Hn. apply list_elem_of_singleton in Hn as ->. vm_compute. eauto.
Defined.

Lemma parse_files_app f pre : ∀ acc rest,
  (∀ n, n ∈ pre → is_Some (f n)) →
  parse_files f acc (pre ++ rest)
  = parse_files f (foldl parse_line acc (aux_lines f pre)) rest.
Proof.
  induction pre as [|n pre IH]; intros acc rest Hall; [done|].
  destruct (Hall n) as [x Hx]; [left|].
  unfold aux_lines. simpl. rewrite Hx, foldl_app.
  apply IH. intros m Hm. apply Hall. by right.
Qed.

(** X2: when a registry file of the host's list is missing, [parse_aux]
    raises the error of [open] for the first one that is missing,
    whatever the files before it hold. *)
Theorem parse_aux_missing_file w pre n rest :
  aux_md5 (doc w) = pre ++ n :: rest →
  (∀ m, m ∈ pre → is_Some (fs w m)) →
  fs w n = None →
  parse_aux w = Raise (IOError n).
Proof.
  intros Haux Hpre Hn. unfold parse_aux.
  rewrite Haux, parse_files_app by done. simpl. by rewrite Hn.
Qed.

Lemma parse_aux_missing_file_witness :
  parse_aux Examples.w_norun = Raise (IOError "main.aux").
Proof.
  apply (parse_aux_missing_file Examples.w_norun [] "main.aux" []).
  - reflexivity.
  - intros m Hm. by apply elem_of_nil in Hm.
  - reflexivity.
Defined.

Lemma aux_entry_line_body e : aux_entry_line e = aux_entry_body e +:+ eol.
Proof. destruct e; simpl; by rewrite !app_assoc_str. Qed.

Lemma aux_entry_body_line e :
  aux_entry_ok e → occurs Str.newline (aux_entry_body e) = false.
Proof.
  destruct e as [key|names]; simpl.
  - intros Hkey. by rewrite !occurs_app, Hkey.
  - intros [_ Hall]. rewrite !occurs_app, occurs_join; [done..|].
    eapply Forall_impl; [done|]. by intros n [? ?].
Qed.

Lemma readlines_write_aux es :
  Forall aux_entry_ok es →
  Str.readlines (write_aux es) = aux_entry_line <$> es.
Proof.
  assert (write_aux es
          = foldr (λ b s, (b +:+ eol) +:+ s) "" (aux_entry_body <$> es)) as ->.
  { unfold write_aux. induction es as [|e es IH]; [done|].
    simpl. by rewrite aux_entry_line_body, IH. }
  intros Hok.
  rewrite readlines_lines.
  - rewrite <- list_fmap_compose. apply list_fmap_ext.
    intros _ e _. simpl. by rewrite aux_entry_line_body.
  - apply Forall_fmap. eapply Forall_impl; [done|].
    intros e. apply aux_entry_body_line.
Qed.

Lemma citation_keys_written es :
  Forall aux_entry_ok es →
  citation_keys (aux_entry_line <$> es) = entry_keys es.
Proof.
  unfold citation_keys, entry_keys.
  induction 1 as [|[key|names] es Hok Hall IH]; [done|..]; simpl in *.
  - rewrite re_citation_line by done. f_equal. exact IH.
  - exact IH.
Qed.

Lemma bibdata_names_written es :
  Forall aux_entry_ok es →
  bibdata_names (aux_entry_line <$> es) = entry_names es.
Proof.
  unfold bibdata_names, entry_names.
  induction 1 as [|[key|names] es Hok Hall IH]; [done|..]; simpl in *.
  - exact IH.
  - destruct Hok as [Hne Hnames].
    pose proof (re_bibdata_line names Hne Hnames) as Hread.
    destruct (re_bibdata (bibdata_line names)) as [data|]; [|done].
    injection Hread as Hsplit. rewrite bind_cons, Hsplit. f_equal. exact IH.
Qed.

(** X3: a registry file that holds citation lines and database lines is
    read back: the keys are the keys of the citation lines in the order
    of their first occurrence, sorted in sorted mode, and the databases
    are the names of the database lines, sorted.  A key may hold commas
    and braces, it is not split. *)
Theorem parse_aux_written_registry w n file es :
  aux_md5 (doc w) = [n] →
  fs w n = Some file →
  f_data file = write_aux es →
  Forall aux_entry_ok es →
  parse_aux w
  = Ok (if sorted (self w)
        then merge_sort String.le (first_occurrences (entry_keys es))
        else first_occurrences (entry_keys es),
        merge_sort String.le (entry_names es)).
Proof.
  intros Haux Hfile Hdata Hok.
  rewrite parse_aux_result.
  - rewrite Haux. unfold aux_lines. simpl.
    rewrite Hfile, Hdata, app_nil_r, readlines_write_aux by done.
    by rewrite citation_keys_written, bibdata_names_written.
  - rewrite Haux. intros m ->%list_elem_of_singleton. by rewrite Hfile.
Qed.

Lemma parse_aux_written_registry_witness :
  parse_aux Examples.w_written
  = Ok (["knuth84"; "a,b"], ["books"; "books"; "refs"]).
Proof.
  rewrite (parse_aux_written_registry Examples.w_written "main.aux"
             (mkFile 10 (write_aux Examples.written)) Examples.written).
  - by vm_compute.
  - reflexivity.
  - reflexivity.
  - reflexivity.
  - repeat constructor; done.
Defined.

(** ** Undefined citations *)

Lemma undef_line_fold lines : ∀ (m : gmap string unit) k,
  is_Some (foldl undef_line m lines !! k)
  ↔ is_Some (m !! k) ∨ ∃ line, line ∈ lines ∧ re_undef line = Some k.
Proof.
  induction lines as [|line lines IH]; intros m k; simpl.
  - split; [by left|]. intros [?|(line & Hin & _)]; [done|].
    by apply elem_of_nil in Hin.
  - rewrite IH. unfold undef_line. split.
    + intros [Hm|(l & Hin & Hl)].
      * destruct (re_undef line) as [cite|] eqn:Hline; [|by left].
        destruct (decide (cite = k)) as [->|Hne].
        -- right. exists line. split; [left|done].
        -- left. by rewrite lookup_insert_ne in Hm.
      * right. exists l. split; [by right|done].
    + intros [Hm|(l & [->|Hin]%elem_of_cons & Hl)].
      * left. destruct (re_undef line) as [cite|]; [|done].
        destruct (decide (cite = k)) as [->|Hne].
        -- by rewrite lookup_insert_eq.
        -- by rewrite lookup_insert_ne.
      * left. rewrite Hl. by rewrite lookup_insert_eq.
      * right. by exists l.
Qed.

Lemma list_undefs_elem_of w k :
  k ∈ list_undefs w ↔ ∃ line, line ∈ log_lines (doc w) ∧ re_undef line = Some k.
Proof.
  unfold list_undefs. rewrite merge_sort_Permutation.
  rewrite list_elem_of_fmap. split.
  - intros ([k' []] & -> & Hin%elem_of_map_to_list). simpl.
    assert (is_Some (foldl undef_line ∅ (log_lines (doc w)) !! k')) as Hk by eauto.
    apply undef_line_fold in Hk as [[? Hk]|Hk]; [|done].
    by rewrite lookup_empty in Hk.
  - intros Hline.
    assert (is_Some (foldl undef_line ∅ (log_lines (doc w)) !! k)) as [[] Hk].
    { apply undef_line_fold. by right. }
    exists (k, tt). split; [done|]. by apply elem_of_map_to_list.
Qed.

(** X4: the list of undefined citations is sorted for the order of
    strings, has no duplicate, and has the keys of the warnings of the
    main log and no other; it is empty when the log has no such
    warning. *)
Theorem list_undefs_spec w :
  StronglySorted String.le (list_undefs w) ∧
  NoDup (list_undefs w) ∧
  (∀ k, k ∈ list_undefs w
        ↔ ∃ line, line ∈ log_lines (doc w) ∧ re_undef line = Some k) ∧
  ((∀ line, line ∈ log_lines (doc w) → re_undef line = None) → list_undefs w = []).
Proof.
  split_and!.
  - apply (StronglySorted_merge_sort String.le).
  - unfold list_undefs. rewrite merge_sort_Permutation.
    apply NoDup_fst_map_to_list.
  - apply list_undefs_elem_of.
  - intros Hnone. destruct (list_undefs w) as [|k l] eqn:Hl; [done|].
    assert (k ∈ list_undefs w) as Hk by (rewrite Hl; left).
    apply list_undefs_elem_of in Hk as (line & Hin & Hline).
    by rewrite (Hnone line Hin) in Hline.
Qed.

Lemma undef_cite_no_quote s : occurs "'"%char s = false → undef_cite s = None.
Proof.
  induction s as [|a s IH]; intros Hs; [done|].
  simpl in *. apply orb_false_iff in Hs as [Ha Hs]. rewrite (IH Hs).
  unfold Str.eqb_ascii in *. apply bool_decide_eq_false in Ha.
  by rewrite bool_decide_false by congruence.
Qed.

Lemma undef_cite_key rest key :
  occurs "'"%char rest = false →
  Str.contains "undefined" rest = true →
  undef_cite (key +:+ "' " +:+ rest) = Some key.
Proof.
  intros Hquote Hundef. induction key as [|a key IH].
  - rewrite app_empty.
    change ("' " +:+ rest) with (String "'"%char (String " "%char rest)).
    cbn [undef_cite]. rewrite (undef_cite_no_quote rest) by done.
    change (Str.strip_prefix "' " (String " " rest)) with (@None string).
    change (Str.strip_prefix "' " (String "'" (String " " rest))) with (Some rest).
    cbv beta iota. by rewrite Hundef.
  - rewrite app_cons. cbn [undef_cite]. by rewrite IH.
Qed.

(** The warning of LaTeX for a key gives the key back: the text after
    the key has [undefined] and no quote, the key is any text of one
    line. *)
Lemma re_undef_warning key rest :
  occurs Str.newline key = false →
  occurs Str.newline rest = false →
  occurs "'"%char rest = false →
  Str.contains "undefined" rest = true →
  re_undef (undef_warning key rest) = Some key.
Proof.
  intros Hkey Hrest Hquote Hundef. unfold re_undef, undef_warning.
  rewrite strip_prefix_append. simpl.
  rewrite dot_star_id.
  - by apply undef_cite_key.
  - rewrite !occurs_app, Hkey, Hrest. reflexivity.
Qed.

(** X5: for a main log made of warnings of undefined citations, the
    list of undefined citations has the keys of the warnings and no
    other, whatever the keys hold but a newline. *)
Theorem list_undefs_warnings w warnings :
  log_lines (doc w) = (λ p, undef_warning p.1 p.2) <$> warnings →
  Forall warning_ok warnings →
  ∀ k, k ∈ list_undefs w ↔ k ∈ warnings.*1.
Proof.
  intros Hlog Hok k. rewrite list_undefs_elem_of, Hlog. split.
  - intros (line & ([key rest] & -> & Hin)%list_elem_of_fmap & Hline).
    rewrite Forall_forall in Hok. destruct (Hok _ Hin) as (? & ? & ? & ?).
    rewrite re_undef_warning in Hline by done. injection Hline as <-.
    apply list_elem_of_fmap. by exists (key, rest).
  - intros ([key rest] & -> & Hin)%list_elem_of_fmap.
    rewrite Forall_forall in Hok. destruct (Hok _ Hin) as (? & ? & ? & ?).
    exists (undef_warning key rest). split.
    + apply list_elem_of_fmap. by exists (key, rest).
    + by apply re_undef_warning.
Qed.

Lemma list_undefs_warnings_witness :
  list_undefs Examples.w_warnings = ["it's"; "x"] ∧
  ∀ k, k ∈ list_undefs Examples.w_warnings ↔ k ∈ Examples.warnings.*1.
Proof.
  split; [by vm_compute|].
  apply (list_undefs_warnings Examples.w_warnings Examples.warnings).
  - reflexivity.
  - repeat constructor.
Defined.

(** ** Databases that are found *)

Lemma add_db_loop_skip name w pre rest :
  (∀ d, d ∈ pre → exists_file (fs w) (join d (name +:+ ".bib")) = false) →
  add_db_loop name (pre ++ rest) w = add_db_loop name rest w.
Proof.
  induction pre as [|d pre IH]; intros Hno; [done|].
  simpl. unfold bind, gets. rewrite (Hno d) by left.
  apply IH. intros d' Hd'. apply Hno. by right.
Qed.

Lemma add_db_found name w pre dir rest :
  bib_path (self w) = pre ++ dir :: rest →
  (∀ d, d ∈ pre → exists_file (fs w) (join d (name +:+ ".bib")) = false) →
  exists_file (fs w) (join dir (name +:+ ".bib")) = true →
  let bib := join dir (name +:+ ".bib") in
  add_db name w
  = (Ok tt,
     mkWorld (fs w)
       (set_not_included (not_included (doc w) ++ [bib])
          (set_sources (<[bib := mkLeaf bib]> (sources (doc w))) (doc w)))
       (set_db (<[name := bib]> (db (self w))) (self w))
       (executed w)).
Proof.
  intros Hpath Hno Hyes bib.
  unfold add_db, bind, gets. rewrite Hpath, add_db_loop_skip by done.
  simpl. unfold bind, gets, on_self, on_doc. by rewrite Hyes.
Qed.

(** X6: [add_db] takes the first directory of the search path that
    holds the file of the database: it records the path of that file
    for the name, makes it a dependency of the host and adds it to the
    files not included; the other databases, the files and the other
    attributes are as before. *)
Theorem add_db_first_match name w pre dir rest :
  bib_path (self w) = pre ++ dir :: rest →
  (∀ d, d ∈ pre → exists_file (fs w) (join d (name +:+ ".bib")) = false) →
  exists_file (fs w) (join dir (name +:+ ".bib")) = true →
  let bib := join dir (name +:+ ".bib") in
  ∃ w', add_db name w = (Ok tt, w') ∧
        db (self w') !! name = Some bib ∧
        (∀ other, other ≠ name → db (self w') !! other = db (self w) !! other) ∧
        sources (doc w') !! bib = Some (mkLeaf bib) ∧
        not_included (doc w') = not_included (doc w) ++ [bib] ∧
        fs w' = fs w ∧ bib_path (self w') = bib_path (self w) ∧
        style (self w') = style (self w) ∧ bst_file (self w') = bst_file (self w).
Proof.
  intros Hpath Hno Hyes bib.
  rewrite (add_db_found name w pre dir rest) by done. fold bib.
  eexists. split; [done|]. simpl. split_and!; try done.
  - apply lookup_insert_eq.
  - intros other Hne. by rewrite lookup_insert_ne.
  - apply lookup_insert_eq.
Qed.

Lemma add_db_first_match_witness :
  ∃ w', add_db "refs" Examples.w_two_dirs = (Ok tt, w') ∧
        db (self w') !! "refs" = Some "/bib/refs.bib" ∧
        not_included (doc w') = ["/bib/refs.bib"].
Proof.
  destruct (add_db_first_match "refs" Examples.w_two_dirs ["/doc"] "/bib" [])
    as (w' & Hrun & Hdb & _ & _ & Hnot & _); [reflexivity| |reflexivity|].
  - intros d ->%list_elem_of_singleton. reflexivity.
  - exists w'. by split_and!.
Defined.

(** X7: declaring a database a second time changes neither the table of
    the databases nor the dependencies of the host, but the list of the
    files not included gets the path once more. *)
Theorem add_db_twice name w pre dir rest :
  bib_path (self w) = pre ++ dir :: rest →
  (∀ d, d ∈ pre → exists_file (fs w) (join d (name +:+ ".bib")) = false) →
  exists_file (fs w) (join dir (name +:+ ".bib")) = true →
  let bib := join dir (name +:+ ".bib") in
  let w1 := (add_db name w).2 in
  let w2 := (add_db name w1).2 in
  db (self w2) = db (self w1) ∧
  sources (doc w2) = sources (doc w1) ∧
  not_included (doc w2) = not_included (doc w) ++ [bib; bib].
Proof.
  intros Hpath Hno Hyes bib w1 w2. subst w1 w2.
  rewrite (add_db_found name w pre dir rest) by done. simpl.
  rewrite (add_db_found name _ pre dir rest) by done. simpl.
  fold bib. rewrite !insert_insert_eq. by rewrite <- app_assoc.
Qed.

Lemma add_db_twice_witness :
  not_included (doc (add_db "refs" (add_db "refs" Examples.w_two_dirs).2).2)
  = ["/bib/refs.bib"; "/bib/refs.bib"].
Proof.
  apply (add_db_twice "refs" Examples.w_two_dirs ["/doc"] "/bib" []);
    [reflexivity| |reflexivity].
  intros d ->%list_elem_of_singleton. reflexivity.
Defined.

(** ** Setting the style *)

(** [set_style] first drops at most the entry named by the old style,
    then records the name and looks for the file. *)
Lemma set_style_unfold name w :
  ∃ deps,
    (deps = sources (doc w)
     ∨ ∃ old, style (self w) = Some old ∧
              is_Some (sources (doc w) !! (old +:+ ".bst")) ∧
              exists_file (fs w) (old +:+ ".bst") = true ∧
              deps = delete (old +:+ ".bst") (sources (doc w))) ∧
    set_style name w
    = set_style_loop name (bst_path (self w))
        (mkWorld (fs w) (set_sources deps (doc w))
                 (set_style_name name (self w)) (executed w)).
Proof.
  unfold set_style, bind, gets, on_self, on_doc, ret. simpl.
  destruct (style (self w)) as [[|a old]|] eqn:Hstyle; simpl.
  1,3: exists (sources (doc w)); split; [by left|]; by destruct w as [? [] ? ?].
  destruct (exists_file _ _) eqn:Hex; simpl.
  - case_bool_decide as Hkey; simpl.
    + eexists. split; [|done]. right. by exists (String a old).
    + exists (sources (doc w)). split; [by left|]. by destruct w as [? [] ? ?].
  - exists (sources (doc w)). split; [by left|]. by destruct w as [? [] ? ?].
Qed.

Lemma set_style_loop_skip name w pre rest :
  (∀ d, d ∈ pre → exists_file (fs w) (join d (name +:+ ".bst")) = false) →
  set_style_loop name (pre ++ rest) w = set_style_loop name rest w.
Proof.
  induction pre as [|d pre IH]; intros Hno; [done|].
  simpl. unfold bind, gets. rewrite (Hno d) by left.
  apply IH. intros d' Hd'. apply Hno. by right.
Qed.

(** X8: [set_style] records the name of the style and takes the first
    directory of the style path that holds the style file: the path of
    that file is recorded and made a dependency of the host; files and
    databases are as before. *)
Theorem set_style_first_match name w pre dir rest :
  bst_path (self w) = pre ++ dir :: rest →
  (∀ d, d ∈ pre → exists_file (fs w) (join d (name +:+ ".bst")) = false) →
  exists_file (fs w) (join dir (name +:+ ".bst")) = true →
  let bst := join dir (name +:+ ".bst") in
  ∃ w', set_style name w = (Ok tt, w') ∧
        style (self w') = Some name ∧
        bst_file (self w') = Some bst ∧
        sources (doc w') !! bst = Some (mkLeaf bst) ∧
        fs w' = fs w ∧ db (self w') = db (self w) ∧
        bst_path (self w') = bst_path (self w).
Proof.
  intros Hpath Hno Hyes bst.
  destruct (set_style_unfold name w) as (deps & _ & ->).
  rewrite Hpath, set_style_loop_skip by done.
  simpl. unfold bind, gets, on_self, on_doc. simpl. rewrite Hyes.
  eexists. split; [done|]. simpl. split_and!; try done.
  apply lookup_insert_eq.
Qed.

Lemma set_style_first_match_witness :
  ∃ w', set_style "alpha" (init Examples.fs_local (Examples.host ["main.aux"] []) "/doc" None)
        = (Ok tt, w') ∧
        style (self w') = Some "alpha" ∧
        bst_file (self w') = Some "/doc/alpha.bst".
Proof.
  destruct (set_style_first_match "alpha"
              (init Examples.fs_local (Examples.host ["main.aux"] []) "/doc" None)
              [] "/doc" [])
    as (w' & Hrun & Hstyle & Hbst & _); [reflexivity| |reflexivity|].
  - intros d Hd. by apply elem_of_nil in Hd.
  - exists w'. by split_and!.
Defined.

Lemma set_style_loop_unresolved name dirs : ∀ w,
  (∀ d, d ∈ dirs → exists_file (fs w) (join d (name +:+ ".bst")) = false) →
  set_style_loop name dirs w = (Ok tt, with_self (set_bst_file None (self w)) w).
Proof.
  induction dirs as [|d dirs IH]; intros w Hno; [done|].
  simpl. unfold bind, gets. rewrite (Hno d) by left.
  apply IH. intros d' Hd'. apply Hno. by right.
Qed.

(** X9: when no directory of the style path holds the style file,
    [set_style] still records the name of the style; it records no
    file ([bst_file] is [None]) and adds no dependency. *)
Theorem set_style_unresolved name w :
  (∀ d, d ∈ bst_path (self w) →
        exists_file (fs w) (join d (name +:+ ".bst")) = false) →
  ∃ w', set_style name w = (Ok tt, w') ∧
        style (self w') = Some name ∧
        bst_file (self w') = None ∧
        (∀ key, is_Some (sources (doc w') !! key) → is_Some (sources (doc w) !! key)) ∧
        fs w' = fs w.
Proof.
  intros Hno.
  destruct (set_style_unfold name w) as (deps & Hdeps & ->).
  rewrite set_style_loop_unresolved by done.
  eexists. split; [done|]. simpl. split_and!; try done.
  intros key Hkey. destruct Hdeps as [->|(old & _ & _ & _ & ->)]; [done|].
  destruct (decide (key = old +:+ ".bst")) as [->|Hne].
  - by rewrite lookup_delete_eq in Hkey; destruct Hkey.
  - by rewrite lookup_delete_ne in Hkey.
Qed.

Lemma set_style_unresolved_witness :
  ∃ w', set_style "acm" Examples.w_first = (Ok tt, w') ∧
        style (self w') = Some "acm" ∧ bst_file (self w') = None.
Proof.
  destruct (set_style_unresolved "acm" Examples.w_first) as (w' & Hrun & Hs & Hb & _).
  - intros d ->%list_elem_of_singleton. reflexivity.
  - exists w'. by split_and!.
Defined.

Lemma set_style_loop_fresh name dirs : ∀ w key,
  (∀ d, d ∈ dirs → join d (name +:+ ".bst") ≠ key) →
  sources (doc w) !! key = None →
  sources (doc (set_style_loop name dirs w).2) !! key = None.
Proof.
  induction dirs as [|d dirs IH]; intros w key Hne Hkey; [done|].
  simpl. unfold bind, gets, on_self, on_doc. simpl.
  destruct (exists_file (fs w) (join d (name +:+ ".bst"))); simpl.
  - rewrite lookup_insert_ne; [done|]. apply Hne. left.
  - apply IH; [|done]. intros d' Hd'. apply Hne. by right.
Qed.

(** X10: when the file of the old style is a dependency under the name
    of the style with its suffix, without a directory, and that file
    exists, [set_style] removes this dependency, unless the new style
    file has the same name; every other dependency stays. *)
Theorem set_style_replaces name w old :
  style (self w) = Some old →
  old ≠ "" →
  exists_file (fs w) (old +:+ ".bst") = true →
  is_Some (sources (doc w) !! (old +:+ ".bst")) →
  (∀ d, d ∈ bst_path (self w) → join d (name +:+ ".bst") ≠ old +:+ ".bst") →
  sources (doc (set_style name w).2) !! (old +:+ ".bst") = None ∧
  ∀ key, key ≠ old +:+ ".bst" →
         is_Some (sources (doc w) !! key) →
         is_Some (sources (doc (set_style name w).2) !! key).
Proof.
  intros Hstyle Hold Hex Hdep Hnew. split.
  - unfold set_style, bind, gets, on_self, on_doc, ret. simpl.
    rewrite Hstyle. destruct old as [|a old]; [done|].
    rewrite Hex, bool_decide_true by done. simpl.
    apply set_style_loop_fresh; [done|]. simpl. apply lookup_delete_eq.
  - intros key Hkey Hin. apply set_style_keeps; [done|].
    intros old' Hold'. rewrite Hstyle in Hold'. by injection Hold' as <-.
Qed.

Lemma set_style_replaces_witness :
  sources (doc (set_style "alpha" Examples.w_relative).2) !! "plain.bst" = None ∧
  is_Some (sources (doc (set_style "alpha" Examples.w_relative).2) !! "/doc/main.tex").
Proof.
  destruct (set_style_replaces "alpha" Examples.w_relative "plain")
    as [Hgone Hkept].
  - reflexivity.
  - done.
  - reflexivity.
  - vm_compute. eauto.
  - intros d ->%list_elem_of_singleton. by vm_compute.
  - split; [exact Hgone|]. apply Hkept; [done|]. vm_compute. eauto.
Defined.

(** ** Is a first run needed, again *)

Lemma db_modified_decides f t dbs :
  (∀ p, p ∈ dbs → is_Some (f p)) →
  ∃ b, db_modified f t dbs = Ok b ∧
       (b = true ↔ ∃ p x, p ∈ dbs ∧ f p = Some x ∧ (f_mtime x > t)%Z).
Proof.
  induction dbs as [|d dbs IH]; intros Hall; simpl.
  - exists false. split; [done|]. split; [done|].
    intros (p & x & Hp & _). by apply elem_of_nil in Hp.
  - destruct (Hall d) as [x Hx]; [left|].
    unfold getmtime. rewrite Hx. simpl.
    destruct (Z.gtb_spec (f_mtime x) t) as [Hgt|Hle].
    + exists true. split; [done|]. split; [|done]. intros _.
      exists d, x. split; [left|]. split; [done|lia].
    + destruct IH as (b & -> & Hb); [intros p Hp; apply Hall; by right|].
      exists b. split; [done|]. rewrite Hb. split.
      * intros (p & y & Hp & Hy). exists p, y. split; [by right|done].
      * intros (p & y & [->|Hp]%elem_of_cons & Hy & Hgt).
        -- rewrite Hx in Hy. injection Hy as <-. lia.
        -- by exists p, y.
Qed.


Lemma elem_of_db_values (m : gmap string string) path :
  path ∈ (map_to_list m).*2 ↔ ∃ name, m !! name = Some path.
Proof.
  rewrite list_elem_of_fmap. split.
  - intros ([name p] & -> & Hin%elem_of_map_to_list). by exists name.
  - intros (name & Hname). exists (name, path). split; [done|].
    by apply elem_of_map_to_list.
Qed.

(** X11: with a registry and a tool log, and with the files of the
    registered databases and of the style on disk, [first_run_needed]
    returns, and it asks for a run exactly when a database file is
    strictly newer than the tool log, or the tool log has an error
    marker, or it reports another style, or the style file is strictly
    newer than the tool log. *)
Theorem first_run_needed_decides w blg :
  exists_file (fs w) (base (self w) +:+ ".aux") = true →
  fs w (base (self w) +:+ ".blg") = Some blg →
  (∀ name path, db (self w) !! name = Some path → is_Some (fs w path)) →
  (∀ path, bst_file (self w) = Some path → is_Some (fs w path)) →
  ∃ b, first_run_needed w = Ok b ∧
       (b = true ↔
          (∃ name path x, db (self w) !! name = Some path ∧
                          fs w path = Some x ∧ (f_mtime x > f_mtime blg)%Z)
          ∨ has_error_marker (Str.readlines (f_data blg)) = true
          ∨ style_changed w = true
          ∨ (∃ path x, bst_file (self w) = Some path ∧ path ≠ "" ∧
                       fs w path = Some x ∧ (f_mtime x > f_mtime blg)%Z)).
Proof.
  intros Haux Hblg Hdb Hbst. unfold first_run_needed.
  rewrite Haux. unfold exists_file, getmtime, open_lines. rewrite Hblg. simpl.
  destruct (db_modified_decides (fs w) (f_mtime blg) (map_to_list (db (self w))).*2)
    as (modified & -> & Hmod).
  { intros p (name & Hname)%elem_of_db_values. by eapply Hdb. }
  simpl. destruct modified.
  { exists true. split; [done|]. split; [|done]. intros _. left.
    destruct (proj1 Hmod eq_refl) as (p & x & (name & Hname)%elem_of_db_values & Hx).
    by exists name, p, x. }
  assert (¬ ∃ name path x, db (self w) !! name = Some path ∧
            fs w path = Some x ∧ (f_mtime x > f_mtime blg)%Z) as Hnodb.
  { intros (name & path & x & Hname & Hx). 
    assert (false = true); [|done]. apply Hmod. exists path, x.
    split; [|done]. apply elem_of_db_values. by exists name. }
  destruct (has_error_marker _) eqn:Hmark.
  { exists true. split; [done|]. split; [|done]. intros _. by right; left. }
  destruct (style_changed w) eqn:Hstyle.
  { exists true. split; [done|]. split; [|done]. intros _. by right; right; left. }
  destruct (bst_file (self w)) as [[|a bst]|] eqn:Hfile.
  - exists false. split; [done|]. split; [done|].
    intros [?|[?|[?|(p & x & [= <-] & Hp & _)]]]; done.
  - destruct (Hbst _ eq_refl) as [x Hx]. rewrite Hx. simpl.
    destruct (Z.gtb_spec (f_mtime x) (f_mtime blg)) as [Hgt|Hle].
    + exists true. split; [done|]. split; [|done]. intros _.
      right; right; right. exists (String a bst), x. split_and!; try done. lia.
    + exists false. split; [done|]. split; [done|].
      intros [?|[?|[?|(p & y & [= <-] & _ & Hy & Hgt)]]]; try done.
      rewrite Hx in Hy. injection Hy as <-. lia.
  - exists false. split; [done|]. split; [done|].
    intros [?|[?|[?|(p & x & [=] & _)]]]; done.
Qed.

Lemma first_run_needed_decides_witness :
  ∃ b, first_run_needed Examples.w_clean = Ok b ∧
       (b = true ↔
          (∃ name path x, db (self Examples.w_clean) !! name = Some path ∧
                          fs Examples.w_clean path = Some x ∧ (f_mtime x > 20)%Z)
          ∨ has_error_marker
              (Str.readlines ("This is BibTeX" +:+ Examples.nl +:+
                              "The style file: plain.bst" +:+ Examples.nl)) = true
          ∨ style_changed Examples.w_clean = true
          ∨ (∃ path x, bst_file (self Examples.w_clean) = Some path ∧ path ≠ "" ∧
                       fs Examples.w_clean path = Some x ∧ (f_mtime x > 20)%Z)).
Proof.
  apply (first_run_needed_decides Examples.w_clean
           (mkFile 20 ("This is BibTeX" +:+ Examples.nl +:+
                       "The style file: plain.bst" +:+ Examples.nl))).
  - reflexivity.
  - reflexivity.
  - assert (db (self Examples.w_clean) = {["refs" := "/doc/refs.bib"]}) as ->
      by reflexivity.
    intros name path [<- <-]%lookup_singleton_Some. vm_compute. eauto.
  - assert (bst_file (self Examples.w_clean) = Some "/doc/plain.bst") as ->
      by reflexivity.
    intros path [= <-]. vm_compute. eauto.
Defined.



(** ** The style that the tool log reports *)

Lemma take_app p s : Str.take (String.length p) (p +:+ s) = p.
Proof.
  induction p as [|a p IH]; [by destruct s|].
  rewrite app_cons. simpl. by rewrite IH.
Qed.

Lemma drop_app p s : Str.drop (String.length p) (p +:+ s) = s.
Proof. induction p as [|a p IH]; [by destruct s|]. by rewrite app_cons. Qed.

Lemma length_app_str s t :
  String.length (s +:+ t) = String.length s + String.length t.
Proof. induction s as [|a s IH]; [done|]. rewrite app_cons. simpl. by rewrite IH. Qed.

Lemma app_empty_r s : s +:+ "" = s.
Proof. induction s as [|a s IH]; [done|]. rewrite app_cons. by rewrite IH. Qed.

Lemma drop_last_app s t : Str.drop_last (String.length t) (s +:+ t) = s.
Proof.
  unfold Str.drop_last. rewrite length_app_str.
  replace (String.length s + String.length t - String.length t)
    with (String.length s) by lia.
  apply take_app.
Qed.

Lemma rstrip_app s t :
  Str.rstrip t ≠ "" → Str.rstrip (s +:+ t) = s +:+ Str.rstrip t.
Proof.
  intros Ht. induction s as [|a s IH]; [done|].
  rewrite !app_cons. cbn [Str.rstrip]. rewrite IH.
  destruct (s +:+ Str.rstrip t) eqn:Hs; [|done].
  destruct s; [|done]. by rewrite app_empty in Hs.
Qed.

Lemma take_line p : ∀ b,
  occurs Str.newline p = false →
  Str.take (String.length p) (b +:+ eol) = p →
  Str.take (String.length p) b = p.
Proof.
  induction p as [|a p IH]; intros b Hp Htake; [by destruct b|].
  simpl in Hp. apply orb_false_iff in Hp as [Ha Hp].
  destruct b as [|c b].
  - rewrite app_empty in Htake. injection Htake as <- _.
    unfold Str.eqb_ascii in Ha. by rewrite bool_decide_true in Ha.
  - rewrite app_cons in Htake. simpl in *. injection Htake as -> Htake.
    f_equal. by apply IH.
Qed.

Lemma style_changed_loop_other cur bodies lines :
  Forall other_line bodies →
  style_changed_loop cur (((λ b, b +:+ eol) <$> bodies) ++ lines)
  = style_changed_loop cur lines.
Proof.
  induction 1 as [|b bodies [Hnl Hb] Hall IH]; [done|].
  simpl. rewrite bool_decide_false; [done|].
  intros Htake. apply Hb. by apply (take_line "The style file: ").
Qed.

Lemma style_changed_loop_line cur name lines :
  style_changed_loop cur (style_line name :: lines)
  = bool_decide (Some name ≠ cur) || style_changed_loop cur lines.
Proof.
  cbn [style_changed_loop]. unfold style_line.
  rewrite (take_app "The style file: ").
  rewrite bool_decide_true by done. cbn [andb].
  rewrite (rstrip_app "The style file: "), (drop_app "The style file: ").
  - rewrite (rstrip_app name (".bst" +:+ eol)) by done.
    change (Str.rstrip (".bst" +:+ eol)) with ".bst".
    replace (Str.drop_last 4 (name +:+ ".bst")) with name
      by (symmetry; apply (drop_last_app name ".bst")).
    by destruct (bool_decide (Some name ≠ cur)).
  - rewrite (rstrip_app name (".bst" +:+ eol)) by done.
    by destruct name.
Qed.

(** X13: for a tool log that reports the style on one line, among lines
    that do not start with the words of that report, [style_changed] is
    true exactly when the style reported is not the style in use. *)
Theorem style_changed_reported w log pre name post :
  fs w (base (self w) +:+ ".blg") = Some log →
  f_data log = write_lines (pre ++ ("The style file: " +:+ name +:+ ".bst") :: post) →
  occurs Str.newline name = false →
  Forall other_line pre →
  Forall other_line post →
  style_changed w = bool_decide (style (self w) ≠ Some name).
Proof.
  intros Hlog Hdata Hname Hpre Hpost. unfold style_changed.
  rewrite Hlog, Hdata. unfold write_lines. rewrite readlines_lines.
  - rewrite fmap_app, fmap_cons, style_changed_loop_other by done.
    rewrite !app_assoc_str. fold (style_line name).
    rewrite style_changed_loop_line.
    rewrite <- (app_nil_r (_ <$> post)), style_changed_loop_other by done.
    simpl. rewrite orb_false_r. apply bool_decide_ext. naive_solver.
  - apply Forall_app. split; [|constructor].
    + eapply Forall_impl; [done|]. by intros b [? _].
    + rewrite !occurs_app, Hname. reflexivity.
    + eapply Forall_impl; [done|]. by intros b [? _].
Qed.

Lemma style_changed_reported_witness :
  style_changed Examples.w_style = true ∧ style_changed Examples.w_clean = false.
Proof.
  split.
  - rewrite (style_changed_reported Examples.w_style
               (mkFile 20 (write_lines ["This is BibTeX"; "The style file: alpha.bst"]))
               ["This is BibTeX"] "alpha" []).
    + reflexivity.
    + reflexivity.
    + reflexivity.
    + reflexivity.
    + repeat constructor. by vm_compute.
    + constructor.
  - rewrite (style_changed_reported Examples.w_clean
               (mkFile 20 (write_lines ["This is BibTeX"; "The style file: plain.bst"]))
               ["This is BibTeX"] "plain" []).
    + reflexivity.
    + reflexivity.
    + reflexivity.
    + reflexivity.
    + repeat constructor. by vm_compute.
    + constructor.
Defined.

(** ** Before the compilation, again *)

Lemma pre_compile_loaded execute getenv w needed :
  (exists_file (fs w) (src_base (doc w) +:+ ".aux") = true →
   ∀ n, n ∈ aux_md5 (doc w) → is_Some (fs w n)) →
  first_run_needed w = Ok needed →
  pre_compile execute getenv w
  = let w1 := loaded w needed in
    if must_compile (doc w) then (Ok 0%Z, w1)
    else if needed then run execute getenv w1
    else match fs w (base (self w) +:+ ".bbl") with
         | None => (Ok 0%Z, w1)
         | Some bbl =>
             match fs w (src_base (doc w) +:+ ".log") with
             | None => (Raise (OSError (src_base (doc w) +:+ ".log")), w1)
             | Some log =>
                 (Ok 0%Z,
                  if (f_mtime bbl >? f_mtime log)%Z
                  then with_doc (set_must_compile true (doc w)) w1
                  else w1)
             end
         end.
Proof.
  intros Haux Hfirst.
  unfold pre_compile, loaded, bind, gets, reads, on_self, on_doc, ret. simpl.
  assert (∃ cites dbs,
    exists_file (fs w) (src_base (doc w) +:+ ".aux") = true →
    parse_aux w = Ok (cites, dbs)) as (cites & dbs & Hparse).
  { destruct (exists_file (fs w) (src_base (doc w) +:+ ".aux")).
    - destruct (parse_aux_ok w (Haux eq_refl)) as (c & d & Hp). by exists c, d.
    - by exists [], []. }
  destruct (exists_file (fs w) (src_base (doc w) +:+ ".aux"));
    [rewrite Hparse by done|];
    destruct (bool_decide (log_lines (doc w) ≠ [])); simpl.
  all: erewrite (first_run_needed_ext _ w), Hfirst by done; simpl.
  all: destruct (must_compile (doc w)); [reflexivity|].
  all: destruct needed; [reflexivity|].
  all: unfold exists_file, getmtime; simpl.
  all: destruct (fs w (base (self w) +:+ ".bbl")) as [bbl|] eqn:Hbbl;
    simpl; rewrite ?Hbbl; simpl; [|reflexivity].
  all: destruct (fs w (src_base (doc w) +:+ ".log")) as [log|] eqn:Hlog;
    simpl; rewrite ?Hlog; simpl; [|reflexivity].
  all: destruct (f_mtime bbl >? f_mtime log)%Z; reflexivity.
Qed.

(** X14: when the host has already asked for a compilation,
    [pre_compile] returns 0 without running the tool, also when a run
    is needed: it keeps the answer of [first_run_needed] in
    [run_needed] for [post_compile], and leaves the files and the
    request of the host as they are. *)
Theorem pre_compile_host_compiling execute getenv w needed :
  must_compile (doc w) = true →
  (exists_file (fs w) (src_base (doc w) +:+ ".aux") = true →
   ∀ n, n ∈ aux_md5 (doc w) → is_Some (fs w n)) →
  first_run_needed w = Ok needed →
  ∃ w', pre_compile execute getenv w = (Ok 0%Z, w') ∧
        run_needed (self w') = needed ∧
        executed w' = executed w ∧ fs w' = fs w ∧ doc w' = doc w.
Proof.
  intros Hmc Haux Hfirst.
  rewrite (pre_compile_loaded execute getenv w needed Haux Hfirst). simpl.
  rewrite Hmc. by eexists.
Qed.

Lemma pre_compile_host_compiling_witness :
  ∃ w', pre_compile Examples.working_tool Examples.no_env
          (with_doc (set_must_compile true (doc Examples.w_first)) Examples.w_first)
        = (Ok 0%Z, w') ∧
        run_needed (self w') = true ∧ executed w' = [].
Proof.
  destruct (pre_compile_host_compiling Examples.working_tool Examples.no_env
              (with_doc (set_must_compile true (doc Examples.w_first)) Examples.w_first)
              true)
    as (w' & Hrun & Hneeded & Hexec & _).
  - reflexivity.
  - intros _ n ->%list_elem_of_singleton. vm_compute. eauto.
  - reflexivity.
  - exists w'. by split_and!.
Defined.

(** X15: when no run is needed, the host has not asked for a
    compilation and the compiled bibliography is on disk but the main
    log is not, [pre_compile] raises the error of [getmtime] for the
    main log; [must_compile] stays unset. *)
Theorem pre_compile_missing_log execute getenv w bbl :
  must_compile (doc w) = false →
  (exists_file (fs w) (src_base (doc w) +:+ ".aux") = true →
   ∀ n, n ∈ aux_md5 (doc w) → is_Some (fs w n)) →
  first_run_needed w = Ok false →
  fs w (base (self w) +:+ ".bbl") = Some bbl →
  fs w (src_base (doc w) +:+ ".log") = None →
  ∃ w', pre_compile execute getenv w
        = (Raise (OSError (src_base (doc w) +:+ ".log")), w') ∧
        must_compile (doc w') = false ∧ executed w' = executed w.
Proof.
  intros Hmc Haux Hfirst Hbbl Hlog.
  rewrite (pre_compile_loaded execute getenv w false Haux Hfirst). simpl.
  rewrite Hmc, Hbbl, Hlog. by eexists.
Qed.

Lemma pre_compile_missing_log_witness :
  ∃ w', pre_compile Examples.working_tool Examples.no_env Examples.w_no_log
        = (Raise (OSError "main.log"), w') ∧
        must_compile (doc w') = false ∧ executed w' = [].
Proof.
  apply (pre_compile_missing_log Examples.working_tool Examples.no_env
           Examples.w_no_log (mkFile 3 "")); try reflexivity.
  intros [=].
Defined.

(** X16: when [pre_compile] returns, the attribute [prev_dbs] is
    assigned: it is [None] exactly when there is no registry, else it
    is a list of databases. *)
Theorem pre_compile_assigns_prev_dbs execute getenv w r w' :
  pre_compile execute getenv w = (Ok r, w') →
  ∃ v, prev_dbs (self w') = Some v ∧
       (v = None ↔ exists_file (fs w) (src_base (doc w) +:+ ".aux") = false).
Proof.
  unfold pre_compile, run, env_execute, bind, gets, reads, on_self, on_doc, ret.
  simpl. intros Hrun.
  destruct (exists_file (fs w) (src_base (doc w) +:+ ".aux")).
  - destruct (parse_aux w) as [[cites dbs]|]; [|done]. exists (Some dbs).
    split; [|done]. revert Hrun. simpl.
    repeat case_match; intros; by simplify_eq/=.
  - exists None. split; [|done]. revert Hrun. simpl.
    repeat case_match; intros; by simplify_eq/=.
Qed.

Lemma pre_compile_assigns_prev_dbs_witness :
  ∃ v, prev_dbs (self (pre_compile Examples.failing_tool Examples.no_env
                         (Examples.w_bbl 25)).2) = Some v ∧
       (v = None
        ↔ exists_file (fs (Examples.w_bbl 25))
            (src_base (doc (Examples.w_bbl 25)) +:+ ".aux") = false).
Proof.
  apply (pre_compile_assigns_prev_dbs Examples.failing_tool Examples.no_env
           (Examples.w_bbl 25) 0). by vm_compute.
Defined.

(** ** What is run *)

(** [bibtex_needed] changes nothing but the memory of the last
    evaluation, whether it returns or raises. *)
Lemma bibtex_needed_frame w :
  let w' := (bibtex_needed w).2 in
  fs w' = fs w ∧ doc w' = doc w ∧ executed w' = executed w ∧
  base (self w') = base (self w) ∧ run_needed (self w') = run_needed (self w) ∧
  db (self w') = db (self w) ∧ style (self w') = style (self w) ∧
  bst_file (self w') = bst_file (self w) ∧ sorted (self w') = sorted (self w) ∧
  bib_path (self w') = bib_path (self w) ∧ bst_path (self w') = bst_path (self w).
Proof.
  unfold bibtex_needed, bibtex_needed_undefs, bibtex_needed_blg, read_prev_dbs,
    bind, gets, reads, on_self, ret.
  simpl. repeat case_match; simplify_eq/=; done.
Qed.

(** X17: [pre_compile] and [post_compile] run one command at most,
    whether they return or raise, and this command is [bibtex] with the
    option [--min-crossrefs=100] and the base name of the module. *)
Theorem compile_steps_run_bibtex_once execute getenv w :
  let cmd := ["bibtex"; "--min-crossrefs=100"; base (self w)] in
  (executed (pre_compile execute getenv w).2 = executed w
   ∨ executed (pre_compile execute getenv w).2 = executed w ++ [cmd]) ∧
  (executed (post_compile execute getenv w).2 = executed w
   ∨ executed (post_compile execute getenv w).2 = executed w ++ [cmd]).
Proof.
  intros cmd. subst cmd. split.
  - unfold pre_compile, run, env_execute, bibtex_cmd, bind, gets, reads,
      on_self, on_doc, ret.
    simpl. repeat case_match; simplify_eq/=; auto.
  - unfold post_compile, bind.
    destruct (bibtex_needed_frame w) as (_ & _ & Hexec & Hbase & _).
    destruct (bibtex_needed w) as [[[]|e] w1]; simpl in *; [|auto..].
    unfold run, env_execute, bibtex_cmd, bind, gets, on_self, on_doc, ret.
    simpl. rewrite <- Hexec, <- Hbase.
    repeat case_match; simplify_eq/=; auto.
Qed.

(** ** After the compilation, again *)

(** X18: when no run is pending and [bibtex_needed] returns, it has
    kept what it has just read: the databases and the keys of the
    registry and the undefined citations of the main log; the files
    and the host document are as before. *)
Theorem bibtex_needed_records w r w' :
  run_needed (self w) = false →
  bibtex_needed w = (Ok r, w') →
  ∃ new dbs,
    parse_aux w = Ok (new, dbs) ∧
    prev_dbs (self w') = Some (Some dbs) ∧
    used_cites (self w') = Some new ∧
    undef_cites (self w') = Some (list_undefs w) ∧
    fs w' = fs w ∧ doc w' = doc w ∧ executed w' = executed w.
Proof.
  intros Hrun Hcall.
  destruct (bibtex_needed_state w r w' Hrun Hcall) as (new & dbs & Hparse & ->).
  by exists new, dbs.
Qed.

Lemma bibtex_needed_records_witness :
  ∃ new dbs,
    parse_aux Examples.w_post = Ok (new, dbs) ∧
    prev_dbs (self (bibtex_needed Examples.w_post).2) = Some (Some dbs) ∧
    used_cites (self (bibtex_needed Examples.w_post).2) = Some new ∧
    undef_cites (self (bibtex_needed Examples.w_post).2)
    = Some (list_undefs Examples.w_post) ∧
    fs (bibtex_needed Examples.w_post).2 = fs Examples.w_post ∧
    doc (bibtex_needed Examples.w_post).2 = doc Examples.w_post ∧
    executed (bibtex_needed Examples.w_post).2 = executed Examples.w_post.
Proof.
  apply (bibtex_needed_records Examples.w_post false); by vm_compute.
Defined.

(** With no run pending and a registry that has not changed,
    [bibtex_needed] goes on to the undefined citations. *)
Lemma bibtex_needed_unchanged w new dbs prev :
  run_needed (self w) = false →
  parse_aux w = Ok (new, dbs) →
  prev_dbs (self w) = Some prev →
  prev = None ∨ prev = Some dbs →
  truthy (used_cites (self w)) = false ∨ used_cites (self w) = Some new →
  bibtex_needed w
  = bibtex_needed_undefs
      (with_self (set_used_cites (Some new) (set_prev_dbs (Some dbs) (self w))) w).
Proof.
  intros Hrun Hparse Hprev Hdbs Hused.
  unfold bibtex_needed, bind, gets, reads, read_prev_dbs, on_self, ret. simpl.
  rewrite Hrun, Hparse, Hprev. simpl.
  assert (bool_decide (prev ≠ None) && bool_decide (prev ≠ Some dbs) = false) as ->.
  { destruct Hdbs as [-> | ->].
    - by rewrite (bool_decide_false (None ≠ None)) by (by intros []).
    - rewrite (bool_decide_false (Some dbs ≠ Some dbs)) by (by intros []).
      apply andb_false_r. }
  simpl.
  assert (truthy (used_cites (self w))
          && bool_decide (Some new ≠ used_cites (self w)) = false) as ->.
  { destruct Hused as [-> | ->]; [done|].
    rewrite (bool_decide_false (Some new ≠ Some new)) by (by intros []).
    apply andb_false_r. }
  reflexivity.
Qed.

(** X19: when the databases of the registry are not those kept from
    before, or the cited keys are not those kept from before (a list
    that is not empty), [bibtex_needed] decides for a rerun and keeps
    the new lists. *)
Theorem bibtex_needed_registry_changed w new dbs prev :
  run_needed (self w) = false →
  parse_aux w = Ok (new, dbs) →
  prev_dbs (self w) = Some prev →
  (∃ old, prev = Some old ∧ old ≠ dbs)
  ∨ (∃ old, used_cites (self w) = Some old ∧ old ≠ [] ∧ old ≠ new) →
  bibtex_needed w = (Ok true, observed new dbs w).
Proof.
  intros Hrun Hparse Hprev Hchanged.
  unfold bibtex_needed, bind, gets, reads, read_prev_dbs, on_self, ret. simpl.
  rewrite Hrun, Hparse, Hprev. simpl.
  destruct (bool_decide (prev ≠ None) && bool_decide (prev ≠ Some dbs)) eqn:Hdbs;
    [reflexivity|]. simpl.
  destruct Hchanged as [(old & -> & Hne)|(old & Hused & Hnil & Hne)].
  - rewrite !bool_decide_true in Hdbs by congruence. done.
  - rewrite Hused. destruct old as [|o old]; [done|]. simpl.
    rewrite bool_decide_true by congruence. reflexivity.
Qed.

Lemma bibtex_needed_registry_changed_witness :
  bibtex_needed Examples.w_more_cites
  = (Ok true, observed ["x"; "y"] ["refs"] Examples.w_more_cites).
Proof.
  apply (bibtex_needed_registry_changed Examples.w_more_cites
           ["x"; "y"] ["refs"] (Some ["refs"])); try by vm_compute.
  right. exists ["x"]. split_and!; by vm_compute.
Defined.

Lemma list_undefs_with_self s w : list_undefs (with_self s w) = list_undefs w.
Proof. reflexivity. Qed.

(** X20: when nothing of the registry has changed, the main log has no
    undefined citation and the tool log exists, [bibtex_needed] decides
    for no rerun, whatever the times of the files are. *)
Theorem bibtex_needed_nothing_undefined w new dbs prev :
  run_needed (self w) = false →
  parse_aux w = Ok (new, dbs) →
  prev_dbs (self w) = Some prev →
  prev = None ∨ prev = Some dbs →
  truthy (used_cites (self w)) = false ∨ used_cites (self w) = Some new →
  list_undefs w = [] →
  exists_file (fs w) (base (self w) +:+ ".blg") = true →
  bibtex_needed w = (Ok false, observed new dbs w).
Proof.
  intros Hrun Hparse Hprev Hdbs Hused Hundefs Hblg.
  rewrite (bibtex_needed_unchanged w new dbs prev) by done.
  unfold bibtex_needed_undefs, bibtex_needed_blg, bind, gets, on_self, ret, observed.
  simpl. rewrite Hundefs.
  destruct (truthy (undef_cites (self w))); simpl;
    rewrite !list_undefs_with_self, Hundefs; simpl;
    rewrite ?list_undefs_with_self, ?Hundefs, Hblg; reflexivity.
Qed.

Lemma bibtex_needed_nothing_undefined_witness :
  bibtex_needed Examples.w_resolved
  = (Ok false, observed ["x"] ["refs"] Examples.w_resolved).
Proof.
  apply (bibtex_needed_nothing_undefined Examples.w_resolved
           ["x"] ["refs"] (Some ["refs"])); try by vm_compute.
  - by right.
  - by right.
Defined.

(** X21: when nothing of the registry has changed and the main log has
    an undefined citation that is not in the list kept from before (a
    list that is not empty), [bibtex_needed] decides for a rerun,
    whether the tool log exists or not. *)
Theorem bibtex_needed_new_undefined w new dbs prev old cite :
  run_needed (self w) = false →
  parse_aux w = Ok (new, dbs) →
  prev_dbs (self w) = Some prev →
  prev = None ∨ prev = Some dbs →
  truthy (used_cites (self w)) = false ∨ used_cites (self w) = Some new →
  undef_cites (self w) = Some old →
  old ≠ [] →
  cite ∈ list_undefs w →
  cite ∉ old →
  bibtex_needed w = (Ok true, observed new dbs w).
Proof.
  intros Hrun Hparse Hprev Hdbs Hused Hold Hne Hin Hnew.
  rewrite (bibtex_needed_unchanged w new dbs prev) by done.
  unfold bibtex_needed_undefs, bind, gets, on_self, ret, observed.
  simpl. rewrite Hold.
  destruct old as [|o old]; [done|]. simpl. rewrite !list_undefs_with_self.
  rewrite bool_decide_false by (intros Hnil; rewrite Hnil in Hin; by apply elem_of_nil in Hin).
  destruct (has_new_undef (o :: old) (list_undefs w)) eqn:Hhas; [reflexivity|].
  destruct Hnew. by apply (proj1 (has_new_undef_false _ _) Hhas).
Qed.

Lemma bibtex_needed_new_undefined_witness :
  bibtex_needed Examples.w_new_undef
  = (Ok true, observed ["x"] ["refs"] Examples.w_new_undef).
Proof.
  apply (bibtex_needed_new_undefined Examples.w_new_undef
           ["x"] ["refs"] (Some ["refs"]) ["x"] "y"); try by vm_compute.
  - by right.
  - by right.
  - assert (list_undefs Examples.w_new_undef = ["y"]) as -> by by vm_compute.
    left.
  - by intros [=]%list_elem_of_singleton.
Defined.

(** X22: when nothing of the registry has changed, no undefined citation
    is kept from before, the main log has undefined citations and both
    logs are on disk, [bibtex_needed] decides for a rerun exactly when
    the tool log is strictly older than the main log. *)
Theorem bibtex_needed_stale_log w new dbs prev blg log :
  run_needed (self w) = false →
  parse_aux w = Ok (new, dbs) →
  prev_dbs (self w) = Some prev →
  prev = None ∨ prev = Some dbs →
  truthy (used_cites (self w)) = false ∨ used_cites (self w) = Some new →
  truthy (undef_cites (self w)) = false →
  list_undefs w ≠ [] →
  fs w (base (self w) +:+ ".blg") = Some blg →
  fs w (src_base (doc w) +:+ ".log") = Some log →
  bibtex_needed w
  = (Ok (bool_decide (f_mtime blg < f_mtime log)%Z), observed new dbs w).
Proof.
  intros Hrun Hparse Hprev Hdbs Hused Hold Hundefs Hblg Hlog.
  rewrite (bibtex_needed_unchanged w new dbs prev) by done.
  unfold bibtex_needed_undefs, bibtex_needed_blg, bind, gets, reads, on_self,
    ret, observed, exists_file, getmtime.
  simpl. rewrite Hold. simpl.
  rewrite !list_undefs_with_self, Hblg. simpl.
  rewrite bool_decide_false by congruence. simpl. rewrite Hblg, Hlog. simpl.
  destruct (Z.ltb_spec (f_mtime blg) (f_mtime log)).
  - by rewrite bool_decide_true by lia.
  - by rewrite bool_decide_false by lia.
Qed.

Lemma bibtex_needed_stale_log_witness :
  bibtex_needed (Examples.w_stale 9)
  = (Ok true, observed ["x"] ["refs"] (Examples.w_stale 9)) ∧
  bibtex_needed (Examples.w_stale 12)
  = (Ok false, observed ["x"] ["refs"] (Examples.w_stale 12)).
Proof.
  split.
  - rewrite (bibtex_needed_stale_log (Examples.w_stale 9) ["x"] ["refs"] None
               (mkFile 9 ("This is BibTeX" +:+ Examples.nl)) (mkFile 12 ""));
      try by vm_compute.
    all: by left.
  - rewrite (bibtex_needed_stale_log (Examples.w_stale 12) ["x"] ["refs"] None
               (mkFile 12 ("This is BibTeX" +:+ Examples.nl)) (mkFile 12 ""));
      try by vm_compute.
    all: by left.
Defined.

(** ** Diagnostics of the tool log, again *)

Lemma get_errors_loop_string table s lines :
  (get_errors_loop table (PStr s) lines).1 ≠ [] ↔ has_error_marker lines = true.
Proof.
  revert s. induction lines as [|line lines IH]; intros s; simpl; [done|].
  destruct (re_error line) as [m|] eqn:Hm.
  - rewrite (bool_decide_true (is_Some (Some m))) by (by eexists). simpl.
    case_bool_decide; simpl; by destruct (get_errors_loop table _ lines).
  - rewrite (bool_decide_false (is_Some None)) by (by intros []). simpl. apply IH.
Qed.

(** X23: [get_errors] yields a record at least exactly when the tool log
    has a line with an error marker, the test by which
    [first_run_needed] finds that the last run failed; without a tool
    log it yields nothing. *)
Theorem get_errors_some_record w :
  (fs w (base (self w) +:+ ".blg") = None → get_errors w = ([], Exhausted)) ∧
  (∀ log, fs w (base (self w) +:+ ".blg") = Some log →
     ((get_errors w).1 ≠ [] ↔ has_error_marker (Str.readlines (f_data log)) = true)).
Proof.
  unfold get_errors. split.
  - by intros ->.
  - intros log ->. apply get_errors_loop_string.
Qed.

Lemma get_errors_some_record_witness :
  (get_errors Examples.w_bibbib).1 ≠ []
  ↔ has_error_marker (Str.readlines (two_lines Examples.nl)) = true.
Proof.
  apply (proj2 (get_errors_some_record Examples.w_bibbib)
           (mkFile 20 (two_lines Examples.nl))).
  reflexivity.
Defined.

Lemma error_record_shape table m text : error_record_ok (error_record table m text).
Proof.
  assert (∀ file : string,
    error_record_ok
      (<["file" := PStr file]>
         (groupdict m ∪
          (<["pkg" := PStr "bibtex"]>
             (<["kind" := PStr "error"]> (<["text" := PStr text]> ∅)))))) as Hshape.
  { intros file. unfold error_record_ok, groupdict. split_and!.
    - by vm_compute.
    - by vm_compute.
    - exists text. by vm_compute.
    - exists file. by vm_compute.
    - destruct (m_line m) as [digits|]; [right; exists digits|left]; by vm_compute.
    - intros key Hkey.
      destruct (decide (key ∈ ["pkg"; "kind"; "text"; "file"; "line"]))
        as [|Hnot]; [done|].
      rewrite !not_elem_of_cons in Hnot.
      destruct Hnot as (? & ? & ? & ? & ? & _).
      rewrite lookup_insert_ne, lookup_union, !lookup_insert_ne, !lookup_empty
        in Hkey by done.
      by destruct Hkey. }
  unfold error_record.
  destruct (table !! _) as [path|]; [apply Hshape|].
  destruct (table !! _) as [path|]; [apply Hshape|].
  replace (groupdict m ∪ _) with
    (<["file" := PStr (m_file m)]>
       (groupdict m ∪
        (<["pkg" := PStr "bibtex"]>
           (<["kind" := PStr "error"]> (<["text" := PStr text]> (∅ : gmap string pyval))))));
    [apply Hshape|].
  apply insert_id. unfold groupdict.
  rewrite lookup_union, lookup_insert_ne, lookup_insert_eq by done. done.
Qed.

Lemma get_errors_loop_records table lines : ∀ last d,
  d ∈ (get_errors_loop table last lines).1 → error_record_ok d.
Proof.
  induction lines as [|line lines IH]; intros last d; simpl.
  { by intros ?%elem_of_nil. }
  destruct (re_error line) as [m|]; [|apply IH].
  destruct (if bool_decide (m_start m = 0) then _ else _) as [text|];
    [|by intros ?%elem_of_nil].
  destruct (get_errors_loop table _ lines) as [ds e] eqn:Hloop. simpl.
  intros [->|Hd]%elem_of_cons; [apply error_record_shape|].
  eapply IH. by rewrite Hloop.
Qed.

(** X24: every record that [get_errors] yields has the same five
    entries and no other: the package [bibtex], the kind [error], a
    text, a file, and a line that is [None] or the digits of the log,
    as a string. *)
Theorem get_errors_records w d :
  d ∈ (get_errors w).1 → error_record_ok d.
Proof.
  unfold get_errors. destruct (fs w _) as [log|]; [|by intros ?%elem_of_nil].
  apply get_errors_loop_records.
Qed.

Lemma get_errors_records_witness :
  error_record_ok
    {[ "pkg" := PStr "bibtex"; "kind" := PStr "error";
       "text" := PStr "Warning--foo"; "line" := PStr "7";
       "file" := PStr "/doc/refs.bib.bib" ]}.
Proof.
  apply (get_errors_records Examples.w_bibbib).
  assert ((get_errors Examples.w_bibbib).1
          = [ {[ "pkg" := PStr "bibtex"; "kind" := PStr "error";
                 "text" := PStr "Warning--foo"; "line" := PStr "7";
                 "file" := PStr "/doc/refs.bib.bib" ]} ]) as ->
    by (vm_compute; reflexivity).
  left.
Defined.

Lemma re_error_here_digits s l f : re_error_here s = Some (l, f) → l ≠ Some "".
Proof.
  unfold re_error_here. intros (r & _ & Hr)%bind_Some. cbv zeta in Hr.
  destruct (Str.strip_prefix "line " r ≫= _) as [p|] eqn:Halt.
  - apply bind_Some in Halt as (r1 & _ & Halt).
    destruct (Str.span_digits r1) as [ds r2].
    case_bool_decide; [done|].
    apply bind_Some in Halt as (r3 & _ & (r4 & _ & Halt)%bind_Some).
    simplify_eq. congruence.
  - apply bind_Some in Hr as (r1 & _ & (r4 & _ & Hr)%bind_Some).
    by simplify_eq.
Qed.

Lemma re_error_digits line m : re_error line = Some m → m_line m ≠ Some "".
Proof.
  unfold re_error. generalize 0 as pos.
  induction line as [|a line IH]; intros pos; simpl.
  - done.
  - destruct (re_error_here (String a line)) as [[l f]|] eqn:Hhere; [|apply IH].
    intros [= <-]. by eapply re_error_here_digits.
Qed.

Lemma get_errors_loop_skip table pre lines : ∀ s,
  Forall (λ l, re_error l = None) pre →
  ∃ s', get_errors_loop table (PStr s) (pre ++ lines)
        = get_errors_loop table (PStr s') lines.
Proof.
  induction pre as [|l pre IH]; intros s Hpre; [by exists s|].
  apply Forall_cons in Hpre as [Hl Hpre]. simpl. rewrite Hl. by apply IH.
Qed.

(** X25: when a line with an error marker is followed by a line that
    starts with an error marker, [get_errors] yields the record of the
    first and then raises, whatever follows: after a marker the variable
    [last_line] holds the line number or [None], not a string.  The lines
    before the first marker have no marker. *)
Theorem get_errors_marker_after_marker w log pre l1 l2 rest m1 m2 :
  fs w (base (self w) +:+ ".blg") = Some log →
  Str.readlines (f_data log) = pre ++ l1 :: l2 :: rest →
  Forall (λ l, re_error l = None) pre →
  re_error l1 = Some m1 →
  re_error l2 = Some m2 →
  m_start m2 = 0 →
  ∃ d, get_errors w = ([d], Raised (AttributeError "strip")).
Proof.
  intros Hlog Hlines Hpre H1 H2 Hstart. unfold get_errors.
  rewrite Hlog, Hlines.
  destruct (get_errors_loop_skip (db (self w)) pre (l1 :: l2 :: rest) "" Hpre)
    as [s ->].
  simpl. rewrite H1, H2, Hstart. simpl.
  pose proof (re_error_digits l1 m1 H1) as Hdigits.
  assert (∃ text,
    (if bool_decide (m_start m1 = 0) then Ok (Str.strip s)
     else Ok (Str.strip (Str.take (m_start m1) l1))) = Ok text) as [text ->].
  { case_bool_decide; eauto. }
  destruct (m_line m1) as [ds|]; simpl.
  - rewrite bool_decide_true by congruence. simpl. by eexists.
  - by eexists.
Qed.

Lemma get_errors_marker_after_marker_witness :
  ∃ d, get_errors Examples.w_two_markers = ([d], Raised (AttributeError "strip")).
Proof.
  apply (get_errors_marker_after_marker Examples.w_two_markers
           (mkFile 20 (write_lines
              ["This is BibTeX";
               "I was expecting a `,' or a `}'---line 4 of file refs.bib";
               "---line 9 of file refs.bib";
               "(There were 2 error messages)"]))
           ["This is BibTeX" +:+ eol]
           ("I was expecting a `,' or a `}'---line 4 of file refs.bib" +:+ eol)
           ("---line 9 of file refs.bib" +:+ eol)
           ["(There were 2 error messages)" +:+ eol]
           (ErrorMatch 30 (Some "4") "refs.bib")
           (ErrorMatch 0 (Some "9") "refs.bib")); try by vm_compute.
  repeat constructor.
Defined.

(** ** A new module *)

Lemma set_style_loop_result name dirs : ∀ w,
  ∃ deps bst,
    set_style_loop name dirs w
    = (Ok tt, mkWorld (fs w) (set_sources deps (doc w))
                      (set_bst_file bst (self w)) (executed w)).
Proof.
  induction dirs as [|d dirs IH]; intros w; simpl.
  - exists (sources (doc w)), None. unfold on_self. by destruct w as [? [] ? ?].
  - unfold bind, gets, on_self, on_doc. simpl.
    destruct (exists_file (fs w) (join d (name +:+ ".bst"))); [|apply IH].
    by eexists _, _.
Qed.

Lemma set_style_result name w :
  ∃ deps bst,
    set_style name w
    = (Ok tt, mkWorld (fs w) (set_sources deps (doc w))
                      (set_bst_file bst (set_style_name name (self w)))
                      (executed w)).
Proof.
  destruct (set_style_unfold name w) as (deps & _ & ->).
  destruct (set_style_loop_result name (bst_path (self w))
              (mkWorld (fs w) (set_sources deps (doc w))
                       (set_style_name name (self w)) (executed w)))
    as (deps' & bst & ->).
  by exists deps', bst.
Qed.

(** X26: a new module has the style [plain], sorted mode, no database,
    no pending run and no list kept; its search path for databases is
    the directory of the host, followed by the directory of the source
    when it is another one, and then, without any [path] command, the
    tool is given the variable [BIBINPUTS]: both directories and the
    value of the variable in the environment of the caller. *)
Theorem init_module getenv f d cwd b :
  let s := self (init f d cwd b) in
  fs (init f d cwd b) = f ∧ executed (init f d cwd b) = [] ∧
  base s = default (src_base d) b ∧
  style s = Some "plain" ∧ sorted s = true ∧ db s = ∅ ∧
  run_needed s = false ∧ undef_cites s = None ∧ used_cites s = None ∧
  prev_dbs s = None ∧ bst_path s = [cwd] ∧
  bib_path s = (if bool_decide (src_path d = cwd) then [cwd] else [cwd; src_path d]) ∧
  bibtex_env getenv s
  = (if bool_decide (src_path d = cwd) then ∅
     else {[ "BIBINPUTS" :=
               cwd +:+ ":" +:+ src_path d +:+ ":" +:+ default "" (getenv "BIBINPUTS") ]}).
Proof.
  intros s. subst s. unfold init.
  destruct (set_style_result "plain"
              (mkWorld f d
                 (mkModule (default (src_base d) b)
                    (cwd :: if bool_decide (src_path d ≠ cwd) then [src_path d] else [])
                    [cwd] None None None None None ∅ true false) []))
    as (deps & bst & ->).
  simpl. split_and!; try done.
  - by destruct (decide (src_path d = cwd));
      [rewrite bool_decide_false, bool_decide_true by naive_solver
      |rewrite bool_decide_true, bool_decide_false by naive_solver].
  - unfold bibtex_env. simpl.
    destruct (decide (src_path d = cwd)).
    + rewrite (bool_decide_false (src_path d ≠ cwd)), (bool_decide_true (src_path d = cwd))
        by naive_solver.
      done.
    + rewrite (bool_decide_true (src_path d ≠ cwd)), (bool_decide_false (src_path d = cwd))
        by naive_solver.
      done.
Qed.

(** X27: [post_compile] on a new module, before any [pre_compile],
    raises: the attribute [prev_dbs] that [bibtex_needed] reads is not
    assigned yet.  The registry files are there. *)
Theorem post_compile_before_pre_compile execute getenv f d cwd b :
  (∀ n, n ∈ aux_md5 d → is_Some (f n)) →
  (post_compile execute getenv (init f d cwd b)).1
  = Raise (AttributeError "prev_dbs").
Proof.
  intros Haux. unfold init.
  destruct (set_style_result "plain"
              (mkWorld f d
                 (mkModule (default (src_base d) b)
                    (cwd :: if bool_decide (src_path d ≠ cwd) then [src_path d] else [])
                    [cwd] None None None None None ∅ true false) []))
    as (deps & bst & ->).
  simpl.
  unfold post_compile, bibtex_needed, bind, gets, reads, read_prev_dbs. simpl.
  destruct (parse_aux_ok
              (mkWorld f (set_sources deps d)
                 (set_bst_file bst
                    (set_style_name "plain"
                       (mkModule (default (src_base d) b)
                          (cwd :: if bool_decide (src_path d ≠ cwd)
                                  then [src_path d] else [])
                          [cwd] None None None None None ∅ true false)))
                 []))
    as (cites & dbs & ->); [done|].
  reflexivity.
Qed.

Lemma post_compile_before_pre_compile_witness :
  (post_compile Examples.working_tool Examples.no_env Examples.w_first).1
  = Raise (AttributeError "prev_dbs").
Proof.
  apply (post_compile_before_pre_compile Examples.working_tool Examples.no_env).
  intros n ->%list_elem_of_singleton. vm_compute. eauto.
Defined.

(** ** A run that is put off *)

Lemma loaded_config w needed :
  fs (loaded w needed) = fs w ∧ doc (loaded w needed) = doc w ∧
  executed (loaded w needed) = executed w ∧
  run_needed (self (loaded w needed)) = needed ∧
  base (self (loaded w needed)) = base (self w) ∧
  bib_path (self (loaded w needed)) = bib_path (self w) ∧
  bst_path (self (loaded w needed)) = bst_path (self w).
Proof. unfold loaded. simpl. repeat case_match; done. Qed.

(** X28: when [pre_compile] finds a run needed while the host is about
    to compile, the run is put off: [post_compile] then runs the tool
    at once, whatever the compilation has made of the files, and this
    is the one command run in both steps; the run stays pending exactly
    when the tool fails. *)
Theorem post_compile_runs_pending execute getenv w files status files' :
  must_compile (doc w) = true →
  (exists_file (fs w) (src_base (doc w) +:+ ".aux") = true →
   ∀ n, n ∈ aux_md5 (doc w) → is_Some (fs w n)) →
  first_run_needed w = Ok true →
  execute (bibtex_cmd (self w)) (bibtex_env getenv (self w)) files = (status, files') →
  ∃ w1 w2,
    pre_compile execute getenv w = (Ok 0%Z, w1) ∧
    post_compile execute getenv (with_fs files w1)
    = (Ok (if bool_decide (status = 0%Z) then 0%Z else 1%Z), w2) ∧
    executed w2 = executed w ++ [bibtex_cmd (self w)] ∧
    fs w2 = files' ∧
    run_needed (self w2) = bool_decide (status ≠ 0%Z).
Proof.
  intros Hmc Haux Hfirst Hexec.
  rewrite (pre_compile_loaded execute getenv w true Haux Hfirst). simpl.
  rewrite Hmc.
  destruct (loaded_config w true) as (Hfs & Hdoc & Hex & Hrun & Hbase & Hbib & Hbst).
  remember (loaded w true) as w1 eqn:Hw1. clear Hw1.
  exists w1.
  destruct (decide (status = 0%Z)) as [Hst|Hst];
    [rewrite (bool_decide_false (status ≠ 0%Z)), (bool_decide_true (status = 0%Z))
       by naive_solver
    |rewrite (bool_decide_true (status ≠ 0%Z)), (bool_decide_false (status = 0%Z))
       by done];
    eexists; (split; [done|]).
  all: unfold post_compile, bibtex_needed, run, env_execute, bibtex_cmd, bibtex_env,
    bind, gets, on_self, on_doc, ret in *.
  all: simpl; rewrite Hrun; simpl; rewrite Hbase, Hbib, Hbst, Hexec, Hex.
  - rewrite (bool_decide_false (status ≠ 0%Z)) by naive_solver. simpl. by split_and!.
  - rewrite (bool_decide_true (status ≠ 0%Z)) by done. simpl. by split_and!.
Qed.

Lemma post_compile_runs_pending_witness :
  ∃ w1 w2,
    pre_compile Examples.working_tool Examples.no_env
      (with_doc (set_must_compile true (doc Examples.w_first)) Examples.w_first)
    = (Ok 0%Z, w1) ∧
    post_compile Examples.working_tool Examples.no_env
      (with_fs Examples.fs_compiled w1)
    = (Ok 0%Z, w2) ∧
    executed w2 = [["bibtex"; "--min-crossrefs=100"; "main"]] ∧
    run_needed (self w2) = false.
Proof.
  destruct (post_compile_runs_pending Examples.working_tool Examples.no_env
              (with_doc (set_must_compile true (doc Examples.w_first)) Examples.w_first)
              Examples.fs_compiled 0
              (Examples.working_tool [] ∅ Examples.fs_compiled).2)
    as (w1 & w2 & Hpre & Hpost & Hexec & _ & Hrun).
  - reflexivity.
  - intros _ n ->%list_elem_of_singleton. vm_compute. eauto.
  - reflexivity.
  - reflexivity.
  - exists w1, w2. by split_and!.
Defined.
